(** * SafeScale resource orchestration core: a shallow embedding

    The development follows three packages of the repository:
    - [scerr] (typed errors with cause, consequences and fields),
    - [operations.Core] (the generic persistent object over a metadata
      folder in object storage),
    - [operations.network] (network deletion, gateway deletion and the
      gateway naming done by network creation).

    Go pointers to mutable structs are rendered by explicit state passing:
    a method that mutates its receiver returns the receiver's new value.
    Locks ([SafeLock]/[SafeUnlock]) serialise tasks and have no effect on a
    single task's run, which is what is modelled here. *)

From Stdlib Require Import ZArith Ascii String List Lia DecimalString.
From stdpp Require Import base option list gmap strings.

Local Open Scope string_scope.
Local Open Scope Z_scope.
Set Warnings "-register-all".

(** ** Package scerr: the error values *)

(** gRPC status codes carried by the errors ([codes.Code]); [OK] is the
    zero value. *)
Inductive Code :=
| OK | Unknown | DeadlineExceeded | NotFound | Unavailable | AlreadyExists
| InvalidArgument | Unauthenticated | PermissionDenied | Aborted
| OutOfRange | ResourceExhausted | Unimplemented | Internal
| FailedPrecondition | DataLoss.

(** The dynamic Go type of an error value that embeds [*errCore].
    [errCoreK] is a bare [*errCore] (what [Wrap] and [NewError] build).
    The typed kinds are the pointer types the constructors return:
    [ErrNotFound] is [*ErrNotFound], and so on. [ErrNotFoundV] is the
    struct type [ErrNotFound] itself, held by value: the type that the
    assertions [err.(scerr.ErrNotFound)] of core.go name, and that no
    constructor of the package builds. The last two kinds are the error
    types of package retry that [Core.Read] switches on. *)
Inductive Kind :=
| errCoreK
| ErrTimeout (dur : Z)
| ErrNotFound
| ErrNotFoundV
| ErrNotAvailable
| ErrDuplicate
| ErrInvalidRequest
| ErrNotAuthenticated
| ErrForbidden
| ErrAborted
| ErrOverflow
| ErrOverload
| ErrNotImplemented
| ErrRuntimePanic
| ErrInvalidInstance
| ErrInvalidParameter
| ErrInvalidInstanceContent
| ErrInconsistent
| retry_ErrTimeout
| retry_ErrStopRetry.

(** Values stored in the [fields] map ([map[string]interface{}]). *)
Inductive GoValue :=
| VNil
| VBool (b : bool)
| VInt (n : Z)
| VString (s : string)
| VOther (tag : string).

(** [errCore]: the struct shared by all error kinds. [Fields] is [None]
    for a nil map. A nil slice of consequences and an empty one are both
    the empty list. *)
Record errCore_ (E : Type) := mkErrCore {
  Message : string;
  Causer : option E;
  Fields : option (gmap string GoValue);
  consequences : list E;
  grpcCode : Code
}.
Arguments mkErrCore {E}.
Arguments Message {E}.
Arguments Causer {E}.
Arguments Fields {E}.
Arguments consequences {E}.
Arguments grpcCode {E}.

(** A non-nil Go [error]: either a value that does not implement
    [scerr.Error] (only its text is known), a typed error embedding
    [*errCore], or an [*ErrList]. A possibly-nil [error] is an
    [option error]. *)
Inductive error :=
| GoError (msg : string)
| ScErr (k : Kind) (c : errCore_ error)
| MkErrList (c : errCore_ error) (errors : list error).

Abbreviation errCore := (errCore_ error).

(** [err.(Error)]: the type assertion to the [scerr.Error] interface,
    giving the embedded [*errCore] the promoted methods work on. *)
Definition asError (err : error) : option errCore :=
  match err with
  | GoError _ => None
  | ScErr _ c => Some c
  | MkErrList c _ => Some c
  end.

Definition make_fields : option (gmap string GoValue) := Some ∅.

(** [strings.Join] *)
Fixpoint Join (l : list string) (sep : string) : string :=
  match l with
  | [] => ""
  | [x] => x
  | x :: rest => x +:+ sep +:+ Join rest sep
  end.


(** ** Tasks, object storage and the provider: the outside world *)

Inductive TaskStatus := UNKNOWN | READY | RUNNING | DONE | ABORTED.

(** A [concurrency.Task]; a nil task is [None : option Task]. *)
Record Task := mkTask {
  taskID : nat;
  GetStatus : TaskStatus
}.

Abbreviation bytes := (list Byte.byte).

(** What a run does to the outside: the object-storage operations of the
    metadata folders, the provider driver calls, the loading of a host
    resource and the pauses of the retry loops, in order. *)
Inductive Event :=
| FolderRead (path sub key : string)
| FolderWrite (path sub key : string) (buf : bytes)
| FolderSearch (path sub key : string)
| FolderDelete (path sub key : string)
| SvcDeleteHost (hostID : string)
| SvcDeleteVIP (vipID : string)
| SvcDeleteNetwork (networkID : string)
| SvcGetNetwork (networkID : string)
| HostLoad (ref : string)
| Sleep (ms : Z).

Definition isProviderCall (ev : Event) : bool :=
  match ev with
  | SvcDeleteHost _ | SvcDeleteVIP _ | SvcDeleteNetwork _ | SvcGetNetwork _ => true
  | _ => false
  end.

Definition isStorageAccess (ev : Event) : bool :=
  match ev with
  | FolderRead _ _ _ | FolderWrite _ _ _ _ | FolderSearch _ _ _ | FolderDelete _ _ _ => true
  | _ => false
  end.

Definition isWrite (ev : Event) : bool :=
  match ev with
  | FolderWrite _ _ _ _ => true
  | _ => false
  end.

(** The object storage (objects by folder path, subfolder and key), the
    events so far (oldest first) and the time in milliseconds. *)
Record World := mkWorld {
  objects : gmap (string * string * string) bytes;
  trace : list Event;
  clock : Z
}.

(** [folder]: a metadata folder of the object storage, rooted at [path]. *)
Record folder := mkFolder { path : string }.

(** [propertiesv1.NetworkHosts]: the hosts registered on a network. *)
Record NetworkHosts := mkNetworkHosts {
  ByID : gmap string string;
  ByName : gmap string string
}.

(** The payload of a property: the one known kind, or another one. *)
Inductive Property :=
| NetworkHostsV1 (h : NetworkHosts)
| OtherProperty (raw : string).

Definition HostsV1 : string := "hosts.v1".

(** [*serialize.JSONProperties]: property name to payload. *)
Abbreviation JSONProperties := (gmap string Property).

(** ** The persistent object *)

(** What [Core] asks of the payload it carries: a [data.Clonable] that
    may implement [data.Serializable] and [data.Identifyable] (the two
    type assertions of [Core]), with [reflect.TypeOf(_).String()]. *)
Class Payload (T : Type) := {
  typeName : string;
  isSerializable : bool;
  isIdentifyable : bool;
  Serialize : T -> bytes * option error;
  Deserialize : bytes -> T -> option error * T;
  payload_SafeGetName : T -> string;
  payload_SafeGetID : T -> string
}.

(** [Core]: [shielded] and [properties] are pointers (nil is [None]);
    [name] and [id] are [atomic.Value]s, [None] until first stored. The
    embedded [TaskedLock] has no state of its own in a single task's run. *)
Record Core (T : Type) := mkCore {
  kind : string;
  shielded : option T;
  properties : option JSONProperties;
  folder_ : folder;
  name : option string;
  id_ : option string
}.
Arguments mkCore {T}.
Arguments kind {T}.
Arguments shielded {T}.
Arguments properties {T}.
Arguments folder_ {T}.
Arguments name {T}.
Arguments id_ {T}.

(** A callback of [Inspect] and [Alter] ([resources.Callback]): it works
    on the payload it is given and on the properties (a pointer), and may
    act on the outside world. *)
Definition Callback (T : Type) : Type :=
  T -> JSONProperties -> World -> (option error * T * JSONProperties) * World.

(** ** Package abstract *)

Inductive ipversion := IPv4 | IPv6.

Inductive networkstate :=
| UNKNOWNSTATE | GATEWAY_CREATION | GATEWAY_CONFIGURATION | NETWORK_READY | NETWORK_ERROR.

(** [abstract.VirtualIP]; the hosts are kept by their ids. *)
Record VirtualIP := mkVirtualIP {
  vip_ID : string;
  vip_Name : string;
  vip_NetworkID : string;
  vip_PrivateIP : string;
  vip_PublicIP : string;
  vip_Hosts : list string
}.

Record SubNetwork := mkSubNetwork {
  sub_CIDR : string;
  sub_ID : string
}.

(** [abstract.Network] *)
Record Network := mkNetwork {
  ID : string;
  Name : string;
  CIDR : string;
  Domain : string;
  GatewayID : string;
  SecondaryGatewayID : string;
  VIP : option VirtualIP;
  IPVersion : ipversion;
  NetworkState : networkstate;
  Subnetworks : list SubNetwork;
  Subnet : bool;
  Parent : string
}.

(** [abstract.NetworkRequest] *)
Record NetworkRequest := mkNetworkRequest {
  req_Name : string;
  req_IPVersion : ipversion;
  req_CIDR : string;
  req_Domain : string;
  req_DNSServers : list string;
  req_HA : bool;
  req_Image : string;
  req_KeepOnFailure : bool
}.

(** The part of the provider's capabilities that [Create] reads. *)
Record Capabilities := mkCapabilities { PrivateVirtualIP : bool }.

(** The naming fields of an [abstract.HostRequest]. *)
Record HostRequest := mkHostRequest {
  ResourceName : string;
  HostName : string
}.

(** ** Package scerr: formatting, consequences, constructors *)

Section SafeScale.

(** [json.Marshal] applied to a fields map; [None] when it fails. *)
Variable json_Marshal : option (gmap string GoValue) -> option string.
(** [spew.Sdump] applied to the errors of an [ErrList]. *)
Variable spew_Sdump : list error -> string.
(** [decorateWithCallTrace prefix what why]: the text depends on the
    runtime call stack. *)
Variable decorateWithCallTrace : string -> string -> string -> string.

Definition FieldsFormatter (e : errCore) : string :=
  match json_Marshal (Fields e) with
  | None => ""
  | Some j => j
  end.

Definition Cause_ (e : errCore) : option error := Causer e.
Definition Consequences_ (e : errCore) : list error := consequences e.

(** [errCore.CauseFormatter], with the [Error()] method of the cause and
    of the consequences passed in ([errText]); the loop that puts [";"]
    between consequences is [Join]. *)
Definition CauseFormatter_with (errText : error -> string) (e : errCore) : string :=
  let msgFinal := "" in
  let msgFinal :=
    match Cause_ e with
    | Some cause => msgFinal +:+ " [" +:+ "caused by {" +:+ errText cause +:+ "}]"
    | None => msgFinal
    end in
  let lenConseq := length (Consequences_ e) in
  if (0 <? lenConseq)%nat
  then msgFinal +:+ "[with consequences {"
         +:+ Join (map errText (Consequences_ e)) ";" +:+ "}]"
  else msgFinal.

(** [len(e.Fields)] *)
Definition len_Fields (e : errCore) : nat :=
  match Fields e with
  | None => 0%nat
  | Some m => size m
  end.

(** [errCore.Error]; the character of code 10 is the line break of
    ["\nWith fields: "]. *)
Definition errCore_Error_with (errText : error -> string) (e : errCore) : string :=
  let msgFinal := Message e in
  let msgFinal := msgFinal +:+ CauseFormatter_with errText e in
  if (0 <? len_Fields e)%nat
  then msgFinal +:+ String "010"%char "With fields: " +:+ FieldsFormatter e
  else msgFinal.

(** The [Error()] method of any error value (dynamic dispatch): the text
    of a foreign error, [errCore.Error] for the kinds embedding
    [*errCore], [ErrList.Error] for an error list. *)
Fixpoint Error (err : error) : string :=
  match err with
  | GoError msg => msg
  | ScErr _ c => errCore_Error_with Error c
  | MkErrList _ errors => spew_Sdump errors
  end.

Definition CauseFormatter (e : errCore) : string := CauseFormatter_with Error e.
Definition errCore_Error (e : errCore) : string := errCore_Error_with Error e.

(** [errCore.AddConsequence]: the receiver after the call, which is also
    the value returned (as a bare [*errCore]). *)
Definition errCore_AddConsequence (e : errCore) (err : option error) : errCore :=
  match err with
  | Some x =>
      mkErrCore (Message e) (Causer e) (Fields e) (consequences e ++ [x])%list (grpcCode e)
  | None => e
  end.

(** [errCore.WithField] *)
Definition errCore_WithField (e : errCore) (key : string) (value : GoValue) : errCore :=
  match Fields e with
  | Some m => mkErrCore (Message e) (Causer e) (Some (<[key := value]> m)) (consequences e) (grpcCode e)
  | None => e
  end.

(** Package-level [AddConsequence(err, cons)]. The method is promoted
    from the embedded [*errCore] and returns that pointer, so the value
    returned for a non-nil [cons] is a bare [*errCore]. *)
Definition AddConsequence (err cons : option error) : option error :=
  match err with
  | Some e =>
      match asError e with
      | Some conseq =>
          match cons with
          | Some _ => Some (ScErr errCoreK (errCore_AddConsequence conseq cons))
          | None => Some e
          end
      | None => err
      end
  | None => err
  end.

(** Package-level [Consequences(err)] *)
Definition Consequences (err : option error) : list error :=
  match err with
  | Some e =>
      match asError e with
      | Some conseq => Consequences_ conseq
      | None => []
      end
  | None => []
  end.

(** [Wrap(cause, message)]; [cause] may be nil. *)
Definition Wrap (cause : option error) (message : string) : error :=
  ScErr errCoreK
    (mkErrCore message cause None []
       match cause with
       | Some (ScErr errCoreK casted) => grpcCode casted
       | _ => Unknown
       end).

Definition NotFoundError (msg : string) : error :=
  ScErr ErrNotFound (mkErrCore msg None make_fields [] NotFound).

Definition NotAvailableError (msg : string) : error :=
  ScErr ErrNotAvailable (mkErrCore msg None make_fields [] Unavailable).

Definition AbortedError (msg : string) (err : option error) : error :=
  let msg := if String.eqb msg "" then "aborted" else msg in
  ScErr ErrAborted (mkErrCore msg err make_fields [] Aborted).

Definition InvalidInstanceError : error :=
  ScErr ErrInvalidInstance
    (mkErrCore (decorateWithCallTrace "invalid instance:" "" "calling method from a nil pointer")
       None make_fields [] FailedPrecondition).

Definition InvalidParameterError (what why : string) : error :=
  ScErr ErrInvalidParameter
    (mkErrCore (decorateWithCallTrace "invalid parameter:" what why)
       None make_fields [] FailedPrecondition).

Definition InconsistentError (msg : string) : error :=
  ScErr ErrInconsistent
    (mkErrCore (decorateWithCallTrace msg "" "") None make_fields [] DataLoss).

(** [ErrListError(errors)] *)
Definition ErrListError (errors : list error) : option error :=
  if (length errors =? 0)%nat then None
  else Some (MkErrList (mkErrCore "" None None [] OK) errors).

(** The type assertion to the pointer type [*ErrNotFound], as the
    network operations write it: true of what [NotFoundError] builds. *)
Definition isNotFound (err : error) : bool :=
  match err with
  | ScErr ErrNotFound _ => true
  | _ => false
  end.

(** The type assertion to the struct type [scerr.ErrNotFound], as
    core.go writes it: a [*ErrNotFound] does not pass it. *)
Definition isNotFoundValue (err : error) : bool :=
  match err with
  | ScErr ErrNotFoundV _ => true
  | _ => false
  end.

(** [_, ok := err.(ErrTimeout)] *)
Definition isTimeout (err : error) : bool :=
  match err with
  | ScErr (ErrTimeout _) _ => true
  | _ => false
  end.

(** ** Object storage: the metadata folder *)

Definition emit (ev : Event) (w : World) : World :=
  mkWorld (objects w) (trace w ++ [ev]) (clock w).

Definition sleep (ms : Z) (w : World) : World :=
  mkWorld (objects w) (trace w ++ [Sleep ms]) (clock w + ms).

(** A failure of the object storage itself (outage, refusal), decided by
    the environment from the events so far and the operation attempted;
    [None] lets the operation proceed. *)
Variable storageFault : list Event -> Event -> option error.

(** The provider driver's answer to a call that returns only an error,
    decided by the environment from the events so far. *)
Variable svcReply : list Event -> Event -> option error.

(** Modelled from the spec: the MetadataFolder operations (the type
    [folder] of package operations is not in the sources). [Read]
    fetches the object under [sub/key] and hands its bytes to
    [deserialize]; a missing object is [NotFound]. The text of the
    message is not specified. *)
Definition folder_Read {T : Type} (f : folder) (sub key : string)
    (deserialize : bytes -> T -> option error * T) (x : T) (w : World)
  : (option error * T) * World :=
  let ev := FolderRead (path f) sub key in
  match storageFault (trace w) ev with
  | Some e => ((Some e, x), emit ev w)
  | None =>
      match objects w !! (path f, sub, key) with
      | None => ((Some (NotFoundError ("no metadata '" +:+ sub +:+ "/" +:+ key +:+ "'")), x), emit ev w)
      | Some buf => (deserialize buf x, emit ev w)
      end
  end.

(** Modelled from the spec: [Write(sub, key, bytes)] stores the bytes
    under [sub/key]. *)
Definition folder_Write (f : folder) (sub key : string) (buf : bytes) (w : World)
  : option error * World :=
  let ev := FolderWrite (path f) sub key buf in
  match storageFault (trace w) ev with
  | Some e => (Some e, emit ev w)
  | None =>
      (None, mkWorld (<[(path f, sub, key) := buf]> (objects w)) (trace w ++ [ev]) (clock w))
  end.

(** Modelled from the spec: [Search(sub, key)] tells whether the entry
    exists; a missing entry is [NotFound]. *)
Definition folder_Search (f : folder) (sub key : string) (w : World)
  : option error * World :=
  let ev := FolderSearch (path f) sub key in
  match storageFault (trace w) ev with
  | Some e => (Some e, emit ev w)
  | None =>
      match objects w !! (path f, sub, key) with
      | None => (Some (NotFoundError ("no metadata '" +:+ sub +:+ "/" +:+ key +:+ "'")), emit ev w)
      | Some _ => (None, emit ev w)
      end
  end.

(** Modelled from the spec: [Delete(sub, key)] removes the entry. *)
Definition folder_Delete (f : folder) (sub key : string) (w : World)
  : option error * World :=
  let ev := FolderDelete (path f) sub key in
  match storageFault (trace w) ev with
  | Some e => (Some e, emit ev w)
  | None =>
      (None, mkWorld (delete (path f, sub, key) (objects w)) (trace w ++ [ev]) (clock w))
  end.

(** ** Shielded values and properties *)

(** Modelled from the spec: [concurrency.Shielded] is not in the sources.
    A [*Shielded] is the payload it guards, [None] for a nil pointer.
    [Inspect] runs its callback on a clone of the payload. Used on a nil
    pointer it reports [InvalidInstance]: this is how the operations of
    an instance whose carrier was nulled fail (spec 4.6, [Delete]). The
    state [S] threaded through the callback is whatever the callback can
    reach (the world, pointers it captured). *)
Definition Shielded_Inspect {T S : Type} (d : option T) (task : option Task)
    (inspector : T -> S -> option error * S) (s : S) : option error * S :=
  match d with
  | None => (Some InvalidInstanceError, s)
  | Some witness => inspector witness s
  end.

(** Modelled from the spec: [Alter] passes a clone of the payload to its
    callback and commits the clone when the callback returns without
    error; on error the payload is left as it was. *)
Definition Shielded_Alter {T S : Type} (d : option T) (task : option Task)
    (alterer : T -> S -> (option error * T) * S) (s : S)
  : (option error * option T) * S :=
  match d with
  | None => ((Some InvalidInstanceError, None), s)
  | Some witness =>
      let '((err, clone), s') := alterer witness s in
      match err with
      | Some e => ((Some e, Some witness), s')
      | None => ((None, Some clone), s')
      end
  end.

(** The error of [Inspect] on a key that is not there; the spec does not
    name its kind. *)
Variable unknownPropertyError : string -> error.

(** Modelled from the spec: [Properties.Inspect(task, key, fn)]; an
    unknown key is an error. *)
Definition props_Inspect {S : Type} (props : JSONProperties) (task : option Task)
    (key : string) (inspector : Property -> S -> option error * S) (s : S)
  : option error * S :=
  match props !! key with
  | None => (Some (unknownPropertyError key), s)
  | Some p => inspector p s
  end.

Definition zeroProperty (key : string) : Property :=
  if String.eqb key HostsV1 then NetworkHostsV1 (mkNetworkHosts ∅ ∅)
  else OtherProperty "".

(** Modelled from the spec: [Properties.Alter(task, key, fn)]; an unknown
    key materialises an empty payload, and the altered payload is kept
    when the callback succeeds. *)
Definition props_Alter {S : Type} (props : JSONProperties) (task : option Task)
    (key : string) (alterer : Property -> S -> (option error * Property) * S) (s : S)
  : (option error * JSONProperties) * S :=
  let item := default (zeroProperty key) (props !! key) in
  let '((err, item'), s') := alterer item s in
  match err with
  | Some e => ((Some e, <[key := item]> props), s')
  | None => ((None, <[key := item']> props), s')
  end.

(** Modelled from the spec: [serialize.NewJSONProperties(module)] gives
    an empty container; the spec names no failure of it. *)
Definition NewJSONProperties (module : string) : JSONProperties * option error :=
  (∅, None).

(** ** Package retry *)

Definition Second : Z := 1000.

(** Modelled from the spec: package retry is not in the sources. The
    error that makes a retry loop stop at once ([retry.StopRetryError],
    of type [retry.ErrStopRetry]) wraps its cause; the error of a loop
    that ran out of time ([retry.ErrTimeout]) wraps the last failure. The
    texts of their messages are not specified. *)
Definition StopRetryError (err : error) : error :=
  ScErr retry_ErrStopRetry (mkErrCore "stopping retries" (Some err) make_fields [] Unknown).

(** Modelled from the spec: the error of a retry loop whose time is up. *)
Definition retry_TimeoutError (last : error) : error :=
  ScErr retry_ErrTimeout (mkErrCore "retries timed out" (Some last) make_fields [] DeadlineExceeded).

Definition isStopRetry (err : error) : bool :=
  match err with
  | ScErr retry_ErrStopRetry _ => true
  | _ => false
  end.

Definition isRetryTimeout (err : error) : bool :=
  match err with
  | ScErr retry_ErrTimeout _ => true
  | _ => false
  end.

(** Modelled from the spec: the bounded retry loop. [run] is tried; on
    success the loop ends; a stop-retry error ends it at once; any other
    failure is retried after [delay], unless [timeout] has elapsed since
    the start, which ends the loop with a timeout error. [retries] is
    the number of pauses left; the loop is started with one more than
    fit in the budget, so that time is what ends it. *)
Fixpoint retry_loop {A : Type} (retries : nat)
    (run : A -> World -> (option error * A) * World)
    (delay timeout start : Z) (a : A) (w : World) : (option error * A) * World :=
  let '((err, a1), w1) := run a w in
  match err with
  | None => ((None, a1), w1)
  | Some e =>
      if isStopRetry e then ((Some e, a1), w1)
      else if timeout <=? clock w1 - start then ((Some (retry_TimeoutError e), a1), w1)
      else
        match retries with
        | O => ((Some (retry_TimeoutError e), a1), w1)
        | S n => retry_loop n run delay timeout start a1 (sleep delay w1)
        end
  end.

(** Modelled from the spec: the retry loop with a delay of one second
    and a total budget of [timeout] milliseconds. *)
Definition WhileUnsuccessfulDelay1Second {A : Type}
    (run : A -> World -> (option error * A) * World) (timeout : Z)
    (a : A) (w : World) : (option error * A) * World :=
  retry_loop (Z.to_nat (timeout / Second) + 1) run Second timeout (clock w) a w.

(** ** Package operations: Core *)

Definition byIDFolderName : string := "byID".
Definition byNameFolderName : string := "byName".

(** [iaas.Service], which is not in the sources; a nil service is
    [None : option Service]. *)
Variable Service : Type.

(** [newFolder(svc, path)], which is not in the sources: it gives the
    folder rooted at [path], or fails; whether it fails is the
    environment's. The nil folder of a failure is the folder with no
    path, as in [nullCore]. *)
Variable newFolder_fault : string -> option error.

Definition newFolder (svc : Service) (path : string) : folder * option error :=
  match newFolder_fault path with
  | Some e => (mkFolder "", Some e)
  | None => (mkFolder path, None)
  end.

Section CoreOf.
Context {T : Type} `{Payload T}.

Definition nullCore : Core T := mkCore "nil" None None (mkFolder "") None None.

(** [NewCore(svc, kind, path)] *)
Definition NewCore (svc : option Service) (kind path : string) : Core T * option error :=
  match svc with
  | None => (nullCore, Some (InvalidParameterError "svc" "cannot be nil"))
  | Some svc =>
      if String.eqb kind ""
      then (nullCore, Some (InvalidParameterError "kind" "cannot be empty string"))
      else if String.eqb path ""
      then (nullCore, Some (InvalidParameterError "path" "cannot be empty string"))
      else
        let '(folder, err) := newFolder svc path in
        match err with
        | Some e => (nullCore, Some e)
        | None =>
            let '(props, err) := NewJSONProperties ("resources." +:+ kind) in
            match err with
            | Some e => (nullCore, Some e)
            | None => (mkCore kind None (Some props) folder None None, None)
            end
        end
  end.

Definition IsNull (c : Core T) : bool :=
  String.eqb (kind c) "" || String.eqb (kind c) "nil".

Definition SafeGetID (c : Core T) : string :=
  if IsNull c then "<NullCore>"
  else match id_ c with Some id => id | None => "" end.

Definition SafeGetName (c : Core T) : string :=
  if IsNull c then "<NullCore>"
  else match name c with Some name => name | None => "" end.

Definition set_shielded (c : Core T) (sh : option T) : Core T :=
  mkCore (kind c) sh (properties c) (folder_ c) (name c) (id_ c).

Definition set_properties (c : Core T) (props : option JSONProperties) : Core T :=
  mkCore (kind c) (shielded c) props (folder_ c) (name c) (id_ c).

Definition expected (what : string) : string :=
  "'" +:+ what +:+ "' expected, '" +:+ typeName +:+ "' provided".

(** [readByID] *)
Definition readByID (c : Core T) (task : option Task) (id : string) (w : World)
  : (option error * Core T) * World :=
  let '((err, sh), w') :=
    Shielded_Alter (shielded c) task
      (fun clonable w =>
         if isSerializable
         then folder_Read (folder_ c) byIDFolderName id Deserialize clonable w
         else ((Some (InconsistentError (expected "data.Serializable")), clonable), w))
      w in
  ((err, set_shielded c sh), w').

(** [readByName] *)
Definition readByName (c : Core T) (task : option Task) (name : string) (w : World)
  : (option error * Core T) * World :=
  let '((err, sh), w') :=
    Shielded_Alter (shielded c) task
      (fun clonable w =>
         if isSerializable
         then folder_Read (folder_ c) byNameFolderName name Deserialize clonable w
         else ((Some (InconsistentError (expected "data.Serializable")), clonable), w))
      w in
  ((err, set_shielded c sh), w').

(** [readByReference] *)
Definition readByReference (c : Core T) (task : option Task) (ref : string) (w : World)
  : (option error * Core T) * World :=
  let '((err, c1), w1) := readByID c task ref w in
  match err with
  | Some e =>
      if negb (isNotFoundValue e) then ((Some e, c1), w1)
      else readByName c1 task ref w1
  | None => ((None, c1), w1)
  end.

(** [write] *)
Definition write (c : Core T) (task : option Task) (w : World) : option error * World :=
  Shielded_Inspect (shielded c) task
    (fun clonable w =>
       if negb isSerializable
       then (Some (InconsistentError (expected "data.Serializable")), w)
       else
         let '(buf, err) := Serialize clonable in
         match err with
         | Some e => (Some e, w)
         | None =>
             if negb isIdentifyable
             then (Some (InconsistentError (expected "data.Identifyable")), w)
             else
               let '(err, w1) :=
                 folder_Write (folder_ c) byNameFolderName (payload_SafeGetName clonable) buf w in
               match err with
               | Some e => (Some e, w1)
               | None => folder_Write (folder_ c) byIDFolderName (payload_SafeGetID clonable) buf w1
               end
         end)
    w.

(** [updateIdentity] *)
Definition updateIdentity (c : Core T) (task : option Task) : option error * Core T :=
  match shielded c with
  | Some _ =>
      Shielded_Inspect (shielded c) task
        (fun clonable c =>
           if negb isIdentifyable
           then (Some (InconsistentError (expected "data.Identifyable")), c)
           else
             (None, mkCore (kind c) (shielded c) (properties c) (folder_ c)
                      (Some (payload_SafeGetName clonable)) (Some (payload_SafeGetID clonable))))
        c
  | None =>
      (None, mkCore (kind c) (shielded c) (properties c) (folder_ c) (Some "") (Some ""))
  end.

(** What [fmt] prints for an [atomic.Value] under the verb [%s]: the
    struct between braces, its one field being the stored string, or
    [<nil>] when nothing was stored. *)
Definition fmt_atomic_Value (v : option string) : string :=
  match v with
  | Some s => "{" +:+ s +:+ "}"
  | None => "{<nil>}"
  end.

(** [Reload] *)
Definition Reload (c : Core T) (task : option Task) (w : World)
  : (option error * Core T) * World :=
  if IsNull c then ((Some InvalidInstanceError, c), w)
  else
    match task with
    | None => ((Some (InvalidParameterError "task" "cannot be nil"), c), w)
    | Some _ =>
        let '((err, c1), w1) := readByID c task (SafeGetID c) w in
        match err with
        | Some e =>
            if isNotFoundValue e
            then ((Some (NotFoundError ("the metadata of " +:+ kind c +:+ " '"
                                          +:+ fmt_atomic_Value (name c) +:+ "' vanished")), c1), w1)
            else ((Some e, c1), w1)
        | None => ((None, c1), w1)
        end
    end.

(** The check that [c.properties] is populated, shared by [Inspect] and
    [Alter]. *)
Definition populateProperties (c : Core T) : option error * Core T :=
  match properties c with
  | Some _ => (None, c)
  | None =>
      let '(props, err) := NewJSONProperties ("resources." +:+ kind c) in
      match err with
      | Some e => (Some e, c)
      | None => (None, set_properties c (Some props))
      end
  end.

(** [Inspect] *)
Definition Inspect (c : Core T) (task : option Task) (callback : option (Callback T))
    (w : World) : (option error * Core T) * World :=
  if IsNull c then ((Some InvalidInstanceError, c), w)
  else
    match task, callback with
    | None, _ => ((Some (InvalidParameterError "task" "cannot be nil"), c), w)
    | Some _, None => ((Some (InvalidParameterError "callback" "cannot be nil"), c), w)
    | Some _, Some callback =>
        let '(err, c0) := populateProperties c in
        match err with
        | Some e => ((Some e, c0), w)
        | None =>
            let '((err, c1), w1) := Reload c0 task w in
            match err with
            | Some e => ((Some e, c1), w1)
            | None =>
                let '(err, (props, w2)) :=
                  Shielded_Inspect (shielded c1) task
                    (fun clonable '(props, w) =>
                       let '((err, _, props'), w') := callback clonable props w in
                       (err, (props', w')))
                    (default ∅ (properties c1), w1) in
                ((err, set_properties c1 (Some props)), w2)
            end
        end
    end.

(** [Alter] *)
Definition Alter (c : Core T) (task : option Task) (callback : option (Callback T))
    (w : World) : (option error * Core T) * World :=
  if IsNull c then ((Some InvalidInstanceError, c), w)
  else
    match task, callback with
    | None, _ => ((Some (InvalidParameterError "task" "cannot be nil"), c), w)
    | Some _, None => ((Some (InvalidParameterError "callback" "cannot be nil"), c), w)
    | Some _, Some callback =>
        let '(err, c0) := populateProperties c in
        match err with
        | Some e => ((Some e, c0), w)
        | None =>
            let '((err, c1), w1) := Reload c0 task w in
            match err with
            | Some e => ((Some e, c1), w1)
            | None =>
                let '((err, sh), (props, w2)) :=
                  Shielded_Alter (shielded c1) task
                    (fun clonable '(props, w) =>
                       let '((err, clonable', props'), w') := callback clonable props w in
                       ((err, clonable'), (props', w')))
                    (default ∅ (properties c1), w1) in
                let c2 := set_properties (set_shielded c1 sh) (Some props) in
                match err with
                | Some e => ((Some e, c2), w2)
                | None =>
                    let '(err, w3) := write c2 task w2 in
                    ((err, c2), w3)
                end
            end
        end
    end.

(** [Carry] *)
Definition Carry (c : Core T) (task : option Task) (clonable : option T) (w : World)
  : (option error * Core T) * World :=
  if IsNull c then ((Some InvalidInstanceError, c), w)
  else
    match task, clonable with
    | None, _ => ((Some (InvalidParameterError "task" "cannot be nil"), c), w)
    | Some _, None => ((Some (InvalidParameterError "clonable" "cannot be nil"), c), w)
    | Some _, Some clonable =>
        match shielded c with
        | Some _ => ((Some (NotAvailableError "already carrying a shielded value"), c), w)
        | None =>
            let c1 := set_shielded c (Some clonable) in
            let '(err, c2) := updateIdentity c1 task in
            match err with
            | Some e => ((Some e, c2), w)
            | None =>
                let '(err, w1) := write c2 task w in
                ((err, c2), w1)
            end
        end
    end.

(** [Read] *)
Definition Read (c : Core T) (task : option Task) (ref : string) (w : World)
  : (option error * Core T) * World :=
  if IsNull c then ((Some InvalidInstanceError, c), w)
  else
    match task with
    | None => ((Some (InvalidParameterError "task" "cannot be nil"), c), w)
    | Some _ =>
        if String.eqb ref "" then ((Some (InvalidParameterError "ref" "cannot be empty string"), c), w)
        else
          match shielded c with
          | Some _ => ((Some (NotAvailableError "metadata is already carrying a value"), c), w)
          | None =>
              let '((err, c1), w1) :=
                WhileUnsuccessfulDelay1Second
                  (fun c w =>
                     let '((inErr, c'), w') := readByReference c task ref w in
                     match inErr with
                     | Some e =>
                         if isNotFoundValue e then ((Some e, c'), w')
                         else ((Some (StopRetryError e), c'), w')
                     | None => ((None, c'), w')
                     end)
                  (10 * Second) c w in
              match err with
              | Some e =>
                  if isRetryTimeout e
                  then ((Some (NotFoundError ("failed to load metadata of " +:+ kind c
                                                +:+ " '" +:+ ref +:+ "'")), c1), w1)
                  else ((Some e, c1), w1)
              | None =>
                  let '(err, c2) := updateIdentity c1 task in
                  ((err, c2), w1)
              end
          end
    end.

(** [Delete] *)
Definition Delete (c : Core T) (task : option Task) (w : World)
  : (option error * Core T) * World :=
  if IsNull c then ((Some InvalidInstanceError, c), w)
  else
    match task with
    | None => ((Some (InvalidParameterError "task" "cannot be nil"), c), w)
    | Some _ =>
        let id := SafeGetID c in
        let name := SafeGetName c in
        let '(err, w1) := folder_Search (folder_ c) byIDFolderName id w in
        match (match err with
               | Some e => if negb (isNotFoundValue e) then inl e else inr false
               | None => inr true
               end) with
        | inl e => ((Some e, c), w1)
        | inr idFound =>
            let '(err, w2) := folder_Search (folder_ c) byNameFolderName name w1 in
            match (match err with
                   | Some e => if negb (isNotFoundValue e) then inl e else inr false
                   | None => inr true
                   end) with
            | inl e => ((Some e, c), w2)
            | inr nameFound =>
                let '(err, w3) :=
                  if (idFound : bool) then folder_Delete (folder_ c) byIDFolderName id w2
                  else (None, w2) in
                match err with
                | Some e => ((Some e, c), w3)
                | None =>
                    let '(err, w4) :=
                      if (nameFound : bool) then folder_Delete (folder_ c) byNameFolderName name w3
                      else (None, w3) in
                    match err with
                    | Some e => ((Some e, c), w4)
                    | None => ((None, set_shielded c None), w4)
                    end
                end
            end
        end
    end.

End CoreOf.

(** ** Package operations: network *)

(** [strings.Trim(s, cutset)] for a cutset of one character. *)
Fixpoint TrimLeft (s : list ascii) (c : ascii) : list ascii :=
  match s with
  | a :: rest => if Ascii.eqb a c then TrimLeft rest c else s
  | [] => []
  end.

Definition Trim (s : string) (c : ascii) : string :=
  string_of_list_ascii
    (rev (TrimLeft (rev (TrimLeft (list_ascii_of_string s) c)) c)).

(** [Create], the value of [failover]: high availability is honoured
    only when the provider supports private virtual IPs. *)
Definition Create_failover (req : NetworkRequest) (caps : Capabilities) : bool :=
  let failover := req_HA req in
  if failover
  then (if PrivateVirtualIP caps then failover else false)
  else failover.

(** [Create], the names of the gateways: [(primaryGatewayName,
    secondaryGatewayName)] from [failover], the [gwname] argument and the
    network's name. *)
Definition Create_gatewayNames (failover : bool) (gwname networkName : string)
  : string * string :=
  let primaryGatewayName :=
    if failover || String.eqb gwname "" then "gw-" +:+ networkName else gwname in
  let secondaryGatewayName :=
    if failover then "gw2-" +:+ networkName else "" in
  (primaryGatewayName, secondaryGatewayName).

(** [Create], the requests of the gateway creation subtasks: the primary
    one, and the secondary one when [failover]. *)
Definition Create_gatewayRequests (req : NetworkRequest) (caps : Capabilities)
    (gwname networkName : string) : HostRequest * option HostRequest :=
  let failover := Create_failover req caps in
  let '(primaryGatewayName, secondaryGatewayName) :=
    Create_gatewayNames failover gwname networkName in
  let domain := Trim (req_Domain req) "."%char in
  let domain := if negb (String.eqb domain "") then "." +:+ domain else domain in
  let primaryRequest := mkHostRequest primaryGatewayName (primaryGatewayName +:+ domain) in
  if failover
  then
    let secondaryRequest :=
      mkHostRequest secondaryGatewayName
        (if negb (String.eqb (req_Domain req) "")
         then secondaryGatewayName +:+ domain else secondaryGatewayName) in
    (primaryRequest, Some secondaryRequest)
  else (primaryRequest, None).

(** [*abstract.Network] as a payload; [json.Marshal] and
    [json.Unmarshal] on it are the environment's. *)
Variable json_Marshal_Network : Network -> bytes * option error.
Variable json_Unmarshal_Network : bytes -> Network -> option error * Network.

#[local] Instance Network_Payload : Payload Network := {|
  typeName := "*abstract.Network";
  isSerializable := true;
  isIdentifyable := true;
  Serialize := json_Marshal_Network;
  Deserialize := json_Unmarshal_Network;
  payload_SafeGetName := Name;
  payload_SafeGetID := ID
|}.

(** The payload carried by a host resource; the host sources are not
    part of this development. *)
Variable HostT : Type.

(** Modelled from the spec: [LoadHost(task, svc, ref)] loads the Host
    resource; the function is not in the sources and its outcome (a
    host, or an error) is the environment's. *)
Variable LoadHost_result : list Event -> string -> option (Core HostT) * option error.

Definition LoadHost (task : option Task) (ref : string) (w : World)
  : (option (Core HostT) * option error) * World :=
  (LoadHost_result (trace w) ref, emit (HostLoad ref) w).

(** The provider driver calls made through [objn.SafeGetService()]. *)
Definition svc_DeleteHost (hostID : string) (w : World) : option error * World :=
  (svcReply (trace w) (SvcDeleteHost hostID), emit (SvcDeleteHost hostID) w).

Definition svc_DeleteVIP (vip : VirtualIP) (w : World) : option error * World :=
  (svcReply (trace w) (SvcDeleteVIP (vip_ID vip)), emit (SvcDeleteVIP (vip_ID vip)) w).

Definition svc_DeleteNetwork (networkID : string) (w : World) : option error * World :=
  (svcReply (trace w) (SvcDeleteNetwork networkID), emit (SvcDeleteNetwork networkID) w).

Variable svcGetNetwork : list Event -> string -> option Network * option error.

Definition svc_GetNetwork (networkID : string) (w : World)
  : (option Network * option error) * World :=
  (svcGetNetwork (trace w) networkID, emit (SvcGetNetwork networkID) w).

(** [temporal.GetContextTimeout()] *)
Variable GetContextTimeout : Z.

(** The failures [deleteGateway] keeps from the deletion of the provider
    host: none for success or [NotFound], else the failure wrapped. *)
Definition deleteGateway_hostErrors (name : string) (xerr : option error) : list error :=
  match xerr with
  | Some e =>
      if isNotFound e then []
      else if isTimeout e
      then [Wrap (Some e) ("failed to delete host '" +:+ name +:+ "', timeout")]
      else [Wrap (Some e) ("failed to delete host '" +:+ name +:+ "'")]
  | None => []
  end.

(** The same for the deletion of the host's metadata. *)
Definition deleteGateway_metadataErrors (name : string) (xerr : option error) : list error :=
  match xerr with
  | Some e =>
      if isNotFound e then []
      else if isTimeout e
      then [Wrap (Some e) ("timeout trying to delete gateway metadata%!(EXTRA string="
                             +:+ name +:+ ")")]
      else [Wrap (Some e) ("failed to delete gateway '" +:+ name +:+ "' metadata")]
  | None => []
  end.

(** [deleteGateway]; [fail.NewErrorList] is [ErrListError]. *)
Definition deleteGateway (task : option Task) (gw : Core HostT) (w : World)
  : option error * World :=
  let name := SafeGetName gw in
  let errors : list error := [] in
  let '(xerr, w1) := svc_DeleteHost (SafeGetID gw) w in
  let errors := (errors ++ deleteGateway_hostErrors name xerr)%list in
  let '((xerr, _), w2) := Delete gw task w1 in
  let errors := (errors ++ deleteGateway_metadataErrors name xerr)%list in
  if (0 <? length errors)%nat then (ErrListError errors, w2)
  else (None, w2).

(** [strprocess.Plural], which is not in the sources: the plural mark
    for a count. *)
Variable Plural : nat -> string.

(** The decimal text [fmt] prints for an unsigned integer. *)
Definition fmt_uint (n : nat) : string := NilZero.string_of_uint (Nat.to_uint n).

(** The order in which a [range] loop visits the keys of a map: Go
    leaves it unspecified and changes it from one loop to the next, so
    which of the orders it is, is the environment's, read where the
    loop starts. *)
Variable rangeSeed : list Event -> nat.

(** The keys of a map as a [range] loop started in world [w] visits
    them: each key once, in the order the environment picks among all
    the orders there are. *)
Definition rangeKeys (m : gmap string string) (w : World) : list string :=
  let keys := (map_to_list m).*1 in
  let orders := permutations keys in
  default keys (orders !! (rangeSeed (trace w) `mod` length orders)%nat).

(** [Delete], the inspection of [hosts.v1]: the refusal when hosts are
    still attached. *)
Definition Delete_checkHosts (an : Network) (clonable : Property) (w : World)
  : option error * World :=
  match clonable with
  | NetworkHostsV1 networkHostsV1 =>
      let hostsLen := size (ByName networkHostsV1) in
      if (0 <? hostsLen)%nat
      then
        let list := rangeKeys (ByName networkHostsV1) w in
        let verb := if (hostsLen =? 1)%nat then "is" else "are" in
        let errorMsg :=
          "cannot delete network '" +:+ Name an +:+ "': " +:+ fmt_uint hostsLen
            +:+ " host" +:+ Plural hostsLen +:+ " " +:+ verb
            +:+ " still attached to it: " +:+ Join list ", " in
        (Some (NotAvailableError errorMsg), w)
      else (None, w)
  | OtherProperty _ =>
      (Some (InconsistentError "'*propertiesv1.NetworkHosts' expected, '<other>' provided"), w)
  end.

(** [Delete], the deletion of one gateway (the primary and the secondary
    blocks have the same effect): nothing for an empty id; a gateway
    that cannot be loaded because it is not found is skipped; any other
    failure ends the deletion. *)
Definition Delete_gateway (task : option Task) (gatewayID : string) (w : World)
  : option error * World :=
  if String.eqb gatewayID "" then (None, w)
  else
    let '((rh, innerErr), w1) := LoadHost task gatewayID w in
    match innerErr with
    | Some e =>
        if negb (isNotFound e) then (Some e, w1)
        else (None, w1)
    | None =>
        match rh with
        | Some rh =>
            let '(innerErr, w2) := deleteGateway task rh w1 in
            match innerErr with
            | Some e => if isNotFound e then (None, w2) else (Some e, w2)
            | None => (None, w2)
            end
        | None => (None, w1)
        end
    end.

(** [innerErr.AddConsequence(err)] on an error held by an interface
    variable: the embedded [*errCore] is updated in place. *)
Definition addConsequenceInPlace (e : error) (err : option error) : error :=
  match e with
  | GoError _ => e
  | ScErr k c => ScErr k (errCore_AddConsequence c err)
  | MkErrList c errors => MkErrList (errCore_AddConsequence c err) errors
  end.

(** [Delete], the wait for a network whose deletion timed out. *)
Definition Delete_waitMore (an : Network) (w : World) : option error * World :=
  let '((errWaitMore, _), w1) :=
    WhileUnsuccessfulDelay1Second
      (fun (_ : unit) w =>
         let '((recNet, recErr), w') := svc_GetNetwork (ID an) w in
         match recNet with
         | Some _ => ((Some (GoError "still there"), tt), w')
         | None =>
             match recErr with
             | Some e =>
                 if isNotFound e then ((None, tt), w')
                 else ((Some (Wrap recErr "another kind of error"), tt), w')
             | None => ((Some (Wrap recErr "another kind of error"), tt), w')
             end
         end)
      GetContextTimeout tt w in
  (errWaitMore, w1).

(** [Delete], the callback run under [Alter]. *)
Definition Delete_callback (task : Task) : Callback Network :=
  fun an props w =>
    let '(innerErr, w) :=
      props_Inspect props (Some task) HostsV1 (Delete_checkHosts an) w in
    match innerErr with
    | Some e => ((Some e, an, props), w)
    | None =>
        match GetStatus task with
        | ABORTED => ((Some (AbortedError "" None), an, props), w)
        | _ =>
            let '(innerErr, w) := Delete_gateway (Some task) (GatewayID an) w in
            match innerErr with
            | Some e => ((Some e, an, props), w)
            | None =>
                let '(innerErr, w) := Delete_gateway (Some task) (SecondaryGatewayID an) w in
                match innerErr with
                | Some e => ((Some e, an, props), w)
                | None =>
                    let w :=
                      match VIP an with
                      | Some vip => snd (svc_DeleteVIP vip w)
                      | None => w
                      end in
                    let '(innerErr, w) := svc_DeleteNetwork (ID an) w in
                    match innerErr with
                    | Some e =>
                        if isNotFound e then ((Some e, an, props), w)
                        else if isTimeout e
                        then
                          let '(errWaitMore, w) := Delete_waitMore an w in
                          match errWaitMore with
                          | Some _ => ((Some (addConsequenceInPlace e errWaitMore), an, props), w)
                          | None => ((Some e, an, props), w)
                          end
                        else ((Some e, an, props), w)
                    | None => ((None, an, props), w)
                    end
                end
            end
        end
    end.

(** [network.Delete] *)
Definition network_Delete (objn : Core Network) (task : option Task) (w : World)
  : (option error * Core Network) * World :=
  if IsNull objn then ((Some InvalidInstanceError, objn), w)
  else
    match task with
    | None => ((Some (InvalidParameterError "task" "cannot be nil"), objn), w)
    | Some t =>
        let '((xerr, objn1), w1) := Alter objn task (Some (Delete_callback t)) w in
        match xerr with
        | Some e => ((Some e, objn1), w1)
        | None => Delete objn1 task w1
        end
    end.

(** [network.AttachHost] *)
Definition AttachHost (objn : Core Network) (task : option Task) (host : option (Core HostT))
    (w : World) : (option error * Core Network) * World :=
  if IsNull objn then ((Some InvalidInstanceError, objn), w)
  else
    match task, host with
    | None, _ => ((Some (InvalidParameterError "task" "cannot be nil"), objn), w)
    | Some _, None => ((Some (InvalidParameterError "host" "cannot be nil"), objn), w)
    | Some _, Some host =>
        let hostID := SafeGetID host in
        let hostName := SafeGetName host in
        Alter objn task
          (Some (fun clonable props w =>
             let '((err, props'), w') :=
               props_Alter props task HostsV1
                 (fun clonable w =>
                    match clonable with
                    | NetworkHostsV1 networkHostsV1 =>
                        ((None, NetworkHostsV1
                                  (mkNetworkHosts (<[hostID := hostName]> (ByID networkHostsV1))
                                     (<[hostName := hostID]> (ByName networkHostsV1)))), w)
                    | OtherProperty _ =>
                        ((Some (InconsistentError
                                  "'*propertiesv1.NetworkHosts' expected, '<other>' provided"),
                          clonable), w)
                    end) w in
             ((err, clonable, props'), w')))
          w
    end.


(** ** Package scerr: the other operations *)

(** Package-level [Cause(err)], the loop on a non-nil error: it follows
    the causes as long as the error implements [Error] and has one, and
    gives the last error reached. *)
Fixpoint deepestCause (err : error) : error :=
  match err with
  | GoError _ => err
  | ScErr _ c | MkErrList c _ =>
      match Causer c with
      | Some cause => deepestCause cause
      | None => err
      end
  end.

(** Package-level [Cause(err)] *)
Definition Cause (err : option error) : option error :=
  match err with
  | Some e => Some (deepestCause e)
  | None => None
  end.

(** Package-level [WithField(err, key, content)]; as for
    [AddConsequence], the promoted method returns the embedded
    [*errCore]. *)
Definition WithField (err : option error) (key : string) (content : GoValue) : option error :=
  match err with
  | Some e =>
      match asError e with
      | Some enrich =>
          if negb (String.eqb key "")
          then Some (ScErr errCoreK (errCore_WithField enrich key content))
          else Some e
      | None => err
      end
  | None => err
  end.

(** [errCore.Reset]: the receiver after the call; only an error whose
    dynamic type is the bare [errCore] pointer passes the type assertion. *)
Definition errCore_Reset (e : errCore) (err : option error) : errCore :=
  match err with
  | Some (ScErr errCoreK cerr) =>
      mkErrCore (Message cerr) (Causer cerr) (Fields e) (consequences cerr) (grpcCode e)
  | _ => e
  end.

(** [NewError(message, cause, consequences)] *)
Definition NewError (message : string) (cause : option error) (consequences : list error)
  : error :=
  ScErr errCoreK (mkErrCore message cause make_fields consequences OK).









(** [NotImplementedErrorWithReason]: the gRPC code is not set and stays
    the zero value. *)
Definition NotImplementedErrorWithReason (what why : string) : error :=
  ScErr ErrNotImplemented
    (mkErrCore (decorateWithCallTrace "not implemented yet:" what why)
       None make_fields [] OK).




(** The dynamic type of an error embedding [*errCore]. *)
Definition kindOf (err : error) : option Kind :=
  match err with
  | ScErr k _ => Some k
  | _ => None
  end.

(** What package grpc/status reads in an error: [Convert(err).Message()]
    and [Code(err)]. *)
Variable grpcstatus_Message : error -> string.
Variable grpcstatus_Code : error -> Code.


(** ** Package operations: the queries of network *)

(** A callback that assigns variables of the function that calls
    [Inspect] (as the queries below do): the variables are the value [R]
    the callback is given and gives back. *)
Definition CapturingCallback (T R : Type) : Type :=
  T -> JSONProperties -> R -> World -> (option error * R * JSONProperties) * World.

(** [Core.Inspect] run with such a callback: the same steps as [Inspect],
    with the captured variables, initially [r0], given back as well. *)
Definition Inspect_capturing {T : Type} `{Payload T} {R : Type}
    (c : Core T) (task : option Task) (callback : option (CapturingCallback T R))
    (r0 : R) (w : World) : ((option error * R) * Core T) * World :=
  if IsNull c then (((Some InvalidInstanceError, r0), c), w)
  else
    match task, callback with
    | None, _ => (((Some (InvalidParameterError "task" "cannot be nil"), r0), c), w)
    | Some _, None => (((Some (InvalidParameterError "callback" "cannot be nil"), r0), c), w)
    | Some _, Some callback =>
        let '(err, c0) := populateProperties c in
        match err with
        | Some e => (((Some e, r0), c0), w)
        | None =>
            let '((err, c1), w1) := Reload c0 task w in
            match err with
            | Some e => (((Some e, r0), c1), w1)
            | None =>
                let '(err, (r, props, w2)) :=
                  Shielded_Inspect (shielded c1) task
                    (fun clonable '(r, props, w) =>
                       let '((err, r', props'), w') := callback clonable props r w in
                       (err, (r', props', w')))
                    (r0, default ∅ (properties c1), w1) in
                (((err, r), set_properties c1 (Some props)), w2)
            end
        end
    end.

(** The callback of [Inspect] that a capturing callback stands for, once
    the captured variables are forgotten. *)
Definition forgetCaptured {T R : Type} (callback : CapturingCallback T R) (r0 : R)
  : Callback T :=
  fun clonable props w =>
    let '((err, _, props'), w') := callback clonable props r0 w in
    ((err, clonable, props'), w').

(** [network.DetachHost] *)
Definition DetachHost (objn : Core Network) (task : option Task) (hostID : string)
    (w : World) : (option error * Core Network) * World :=
  if IsNull objn then ((Some InvalidInstanceError, objn), w)
  else
    match task with
    | None => ((Some (InvalidParameterError "task" "cannot be nil"), objn), w)
    | Some _ =>
        if String.eqb hostID ""
        then ((Some (InvalidParameterError "hostID" "cannot be empty string"), objn), w)
        else
          Alter objn task
            (Some (fun clonable props w =>
               let '((err, props'), w') :=
                 props_Alter props task HostsV1
                   (fun clonable w =>
                      match clonable with
                      | NetworkHostsV1 networkHostsV1 =>
                          match ByID networkHostsV1 !! hostID with
                          | Some hostName =>
                              ((None, NetworkHostsV1
                                        (mkNetworkHosts (delete hostID (ByID networkHostsV1))
                                           (delete hostName (ByName networkHostsV1)))), w)
                          | None => ((None, clonable), w)
                          end
                      | OtherProperty _ =>
                          ((Some (InconsistentError
                                    "'*propertiesv1.NetworkHosts' expected, '<other>' provided"),
                            clonable), w)
                      end) w in
               ((err, clonable, props'), w')))
            w
    end.

(** [network.GetGateway] *)
Definition GetGateway (objn : Core Network) (task : option Task) (primary : bool)
    (w : World) : ((option (Core HostT) * option error) * Core Network) * World :=
  if IsNull objn then (((None, Some InvalidInstanceError), objn), w)
  else
    match task with
    | None => (((None, Some (InvalidParameterError "task" "cannot be nil")), objn), w)
    | Some _ =>
        let primaryStr := if negb primary then "secondary" else "primary" in
        let '(((xerr, gatewayID), objn1), w1) :=
          Inspect_capturing objn task
            (Some (fun (an : Network) props (_ : string) w =>
               ((None, if primary then GatewayID an else SecondaryGatewayID an, props), w)))
            "" w in
        match xerr with
        | Some e => (((None, Some e), objn1), w1)
        | None =>
            if String.eqb gatewayID ""
            then (((None, Some (NotFoundError ("no " +:+ primaryStr
                                                 +:+ " gateway ID found in network properties"))),
                   objn1), w1)
            else
              let '(r, w2) := LoadHost task gatewayID w1 in
              ((r, objn1), w2)
        end
    end.

(** [SafeGetPrivateIP] and [SafeGetPublicIP] of the host [LoadHost]
    gave; the host sources are not part of this development. *)
Variable host_SafeGetPrivateIP : option (Core HostT) -> string.
Variable host_SafeGetPublicIP : option (Core HostT) -> string.

(** The callback shared by [GetDefaultRouteIP] and [GetEndpointIP]: the
    IP of the VIP when there is a VIP with that IP, else the IP of the
    primary gateway, which is loaded. *)
Definition routeCallback (task : option Task) (vipIP : VirtualIP -> string)
    (hostIP : option (Core HostT) -> string) : CapturingCallback Network string :=
  fun an props ip w =>
    let viaGateway :=
      let '((objpgw, innerErr), w') := LoadHost task (GatewayID an) w in
      match innerErr with
      | Some e => ((Some e, ip, props), w')
      | None => ((None, hostIP objpgw, props), w')
      end in
    match VIP an with
    | Some vip =>
        if negb (String.eqb (vipIP vip) "") then ((None, vipIP vip, props), w)
        else viaGateway
    | None => viaGateway
    end.

(** [network.GetDefaultRouteIP] *)
Definition GetDefaultRouteIP (objn : Core Network) (task : option Task) (w : World)
  : ((string * option error) * Core Network) * World :=
  if IsNull objn then ((("", Some InvalidInstanceError), objn), w)
  else
    match task with
    | None => ((("", Some (InvalidParameterError "task" "cannot be nil")), objn), w)
    | Some _ =>
        let '(((xerr, ip), objn1), w1) :=
          Inspect_capturing objn task
            (Some (routeCallback task vip_PrivateIP host_SafeGetPrivateIP)) "" w in
        (((ip, xerr), objn1), w1)
    end.

(** [network.GetEndpointIP] *)
Definition GetEndpointIP (objn : Core Network) (task : option Task) (w : World)
  : ((string * option error) * Core Network) * World :=
  if IsNull objn then ((("", Some InvalidInstanceError), objn), w)
  else
    match task with
    | None => ((("", Some (InvalidParameterError "task" "cannot be nil")), objn), w)
    | Some _ =>
        let '(((xerr, ip), objn1), w1) :=
          Inspect_capturing objn task
            (Some (routeCallback task vip_PublicIP host_SafeGetPublicIP)) "" w in
        (((ip, xerr), objn1), w1)
    end.

(** [network.HasVirtualIP] *)
Definition HasVirtualIP (objn : Core Network) (task : option Task) (w : World)
  : (bool * Core Network) * World :=
  if IsNull objn then ((false, objn), w)
  else
    let '(((xerr, found), objn1), w1) :=
      Inspect_capturing objn task
        (Some (fun (an : Network) props (_ : bool) w =>
           ((None, match VIP an with Some _ => true | None => false end, props), w)))
        false w in
    ((match xerr with None => found | Some _ => false end, objn1), w1).

(** [network.GetVirtualIP], on a non-nil receiver. *)
Definition GetVirtualIP (objn : Core Network) (task : option Task) (w : World)
  : ((option VirtualIP * option error) * Core Network) * World :=
  match task with
  | None => (((None, Some (InvalidParameterError "task" "cannot be nil")), objn), w)
  | Some _ =>
      let '(((xerr, vip), objn1), w1) :=
        Inspect_capturing objn task
          (Some (fun (an : Network) props (_ : option VirtualIP) w =>
             ((None, VIP an, props), w)))
          None w in
      match xerr with
      | Some e => (((None, Some (Wrap xerr "cannot get network virtual IP")), objn1), w1)
      | None =>
          match vip with
          | None =>
              (((None, Some (NotFoundError
                               ("failed to find Virtual IP binded to gateways for network '"
                                  +:+ SafeGetName objn1 +:+ "'"))), objn1), w1)
          | Some _ => (((vip, None), objn1), w1)
          end
      end
  end.

(** ** The SSH service: host and path of a copy argument *)

(** [protocolSeparator] is the one-character string [":"]. *)
Definition protocolSeparator : ascii := ":"%char.

(** [strings.Split(s, sep)] for a separator of one (ASCII) character:
    the parts of [s] between the separators, one more than there are
    separators. *)
Fixpoint strings_Split (s : string) (sep : ascii) : list string :=
  match s with
  | EmptyString => [EmptyString]
  | String a rest =>
      if Ascii.eqb a sep then EmptyString :: strings_Split rest sep
      else
        match strings_Split rest sep with
        | p :: ps => String a p :: ps
        | [] => [String a EmptyString]
        end
  end.

(** [strings.TrimSpace] and [strings.ToLower] follow Unicode; they are
    the environment's. *)
Variable strings_TrimSpace : string -> string.
Variable strings_ToLower : string -> string.

Definition extracthostName (in_ : string) : string * option error :=
  let parts := strings_Split in_ protocolSeparator in
  if Nat.eqb (length parts) 1 then ("", None)
  else if Nat.ltb 2 (length parts) then ("", Some (GoError "too many parts in path"))
  else
    let hostName := strings_TrimSpace (nth 0 parts "") in
    if existsb (fun protocol => String.eqb (strings_ToLower hostName) protocol)
         ["file"; "http"; "https"; "ftp"]
    then ("", Some (GoError "no protocol expected. Only host name"))
    else (hostName, None).

Definition extractPath (in_ : string) : string * option error :=
  let parts := strings_Split in_ protocolSeparator in
  if Nat.eqb (length parts) 1 then (in_, None)
  else if Nat.ltb 2 (length parts) then ("", Some (GoError "too many parts in path"))
  else
    match (extracthostName in_).2 with
    | Some err => ("", Some err)
    | None => (strings_TrimSpace (nth 1 parts ""), None)
    end.

(** The number of separators in a string. *)
Definition separators (s : string) : nat :=
  count_occ ascii_dec (list_ascii_of_string s) protocolSeparator.

(** ** The statements of the specification that the code is compared with *)

(** The text of an error as the specification words it: the message, the
    cause between [" [caused by {"] and ["}]"], the consequences joined
    by [";"] between ["[with consequences {"] and ["}]"], then
    ["With fields: "] and the fields. *)
Definition Error_as_specified (e : errCore) : string :=
  Message e
    +:+ match Causer e with
        | Some cause => " [caused by {" +:+ Error cause +:+ "}]"
        | None => ""
        end
    +:+ match consequences e with
        | [] => ""
        | _ => "[with consequences {" +:+ Join (map Error (consequences e)) ";" +:+ "}]"
        end
    +:+ (if (0 <? len_Fields e)%nat then "With fields: " +:+ FieldsFormatter e else "").

(** The name of the primary gateway as the specification words it: the
    explicit name when there is one, else ["gw-<networkName>"]. *)
Definition primaryGatewayName_as_specified (gwname networkName : string) : string :=
  if String.eqb gwname "" then "gw-" +:+ networkName else gwname.

(** The failures of a step of [deleteGateway] that count: all but
    [NotFound]. *)
Definition failuresOf (xerr : option error) : list error :=
  match xerr with
  | Some e => if isNotFound e then [] else [e]
  | None => []
  end.

(** The cause wrapped by an error. *)
Definition causeOf (err : error) : option error :=
  match asError err with
  | Some c => Causer c
  | None => None
  end.

(** The two indices agree: the carried payload serialises to a buffer
    that is what the storage holds under [byID/<id>] and under
    [byName/<name>], and the last two storage operations wrote that one
    buffer under the name and under the id. *)
Definition indices_agree {T : Type} `{Payload T} (c' : Core T) (w' : World) : Prop :=
  exists p buf,
    shielded c' = Some p /\ Serialize p = (buf, None)
    /\ objects w' !! (path (folder_ c'), byIDFolderName, payload_SafeGetID p) = Some buf
    /\ objects w' !! (path (folder_ c'), byNameFolderName, payload_SafeGetName p) = Some buf
    /\ exists tr,
         trace w'
         = (tr ++ [FolderWrite (path (folder_ c')) byNameFolderName (payload_SafeGetName p) buf;
                   FolderWrite (path (folder_ c')) byIDFolderName (payload_SafeGetID p) buf])%list.

(** From [w] to [w'] only storage operations were added to the trace. *)
Definition storageOnly (w w' : World) : Prop :=
  exists ops,
    trace w' = (trace w ++ ops)%list
    /\ Forall (fun ev => isStorageAccess ev = true) ops.

(** ** Concrete environments, used to run the definitions *)

Definition quiet : list Event -> Event -> option error := fun _ _ => None.

Definition plain_Marshal : option (gmap string GoValue) -> option string :=
  fun _ => Some "{}".

Definition plain_Sdump : list error -> string := fun _ => "<errors>".

Definition plain_CallTrace : string -> string -> string -> string :=
  fun prefix what why => prefix +:+ " " +:+ what +:+ " " +:+ why.

Definition plain_Plural : nat -> string :=
  fun n => if (1 <? n)%nat then "s" else "".

Definition plain_unknownProperty : string -> error :=
  fun key => GoError ("unknown property " +:+ key).

(** A codec that writes a network as its id and name, and reads nothing
    back into the payload. *)
Definition plain_Marshal_Network : Network -> bytes * option error :=
  fun n => (list_byte_of_string (ID n +:+ "/" +:+ Name n), None).

Definition plain_Unmarshal_Network : bytes -> Network -> option error * Network :=
  fun _ n => (None, n).

Definition net1 : Network :=
  mkNetwork "id-1" "n1" "192.168.0.0/24" "" "" "" None IPv4 NETWORK_READY [] false "".

Definition task1 : Task := mkTask 1 RUNNING.

Definition networksFolder : folder := mkFolder "networks".

(** A world whose storage holds the metadata of [net1] under both
    indices. *)
Definition world1 : World :=
  mkWorld
    (<[("networks", "byID", "id-1") := list_byte_of_string "id-1/n1"]>
       (<[("networks", "byName", "n1") := list_byte_of_string "id-1/n1"]> ∅))
    [] 0.

Definition emptyWorld : World := mkWorld ∅ [] 0.

(** A network instance carrying [net1], with no host attached and with
    host [h1] attached. *)
Definition core1 : Core Network :=
  mkCore "network" (Some net1) (Some ∅) networksFolder (Some "n1") (Some "id-1").

Definition hosts1 : NetworkHosts :=
  mkNetworkHosts {["h1-id" := "h1"]} {["h1" := "h1-id"]}.

Definition core1_with_host : Core Network :=
  mkCore "network" (Some net1) (Some {[HostsV1 := NetworkHostsV1 hosts1]})
    networksFolder (Some "n1") (Some "id-1").

(** The host [h1], as a loaded host resource. *)
Definition host1 : Core unit :=
  mkCore "host" (Some tt) (Some ∅) (mkFolder "hosts") (Some "h1") (Some "h1-id").

(** A fresh instance, as [NewCore] makes it. *)
Definition freshCore : Core Network :=
  mkCore "network" None (Some ∅) networksFolder None None.

(** A callback that fails, and one that renames nothing and succeeds. *)
Definition failingCallback : Callback Network :=
  fun clonable props w => ((Some (GoError "refused"), clonable, props), w).

Definition idleCallback : Callback Network :=
  fun clonable props w => ((None, clonable, props), w).

Definition haRequest : NetworkRequest :=
  mkNetworkRequest "n1" IPv4 "192.168.0.0/24" "" [] true "" false.

Definition errWithField : errCore :=
  mkErrCore "m" None (Some {["k" := VInt 1]}) [] Unknown.

(** [strings.TrimSpace] and [strings.ToLower] on ASCII text. *)
Definition isAsciiSpace (a : ascii) : bool :=
  let n := nat_of_ascii a in
  Nat.eqb n 32 || (Nat.leb 9 n && Nat.leb n 13).

Fixpoint dropSpaces (l : list ascii) : list ascii :=
  match l with
  | a :: rest => if isAsciiSpace a then dropSpaces rest else l
  | [] => []
  end.

Definition plain_TrimSpace (s : string) : string :=
  string_of_list_ascii (rev (dropSpaces (rev (dropSpaces (list_ascii_of_string s))))).

Definition asciiToLower (a : ascii) : ascii :=
  let n := nat_of_ascii a in
  if Nat.leb 65 n && Nat.leb n 90 then ascii_of_nat (n + 32) else a.

Definition plain_ToLower (s : string) : string :=
  string_of_list_ascii (map asciiToLower (list_ascii_of_string s)).

(** The network [n1] with no host registered, an aborted task, and a
    provider that refuses to delete networks. *)
Definition noHosts : NetworkHosts := mkNetworkHosts ∅ ∅.

Definition core1_no_host : Core Network :=
  mkCore "network" (Some net1) (Some {[HostsV1 := NetworkHostsV1 noHosts]})
    networksFolder (Some "n1") (Some "id-1").



(** A network with a primary gateway and a VIP that has a private IP
    only, and an instance that carries it. *)
Definition vip1 : VirtualIP := mkVirtualIP "vip-1" "vip" "id-1" "192.168.0.10" "" [].

Definition net2 : Network :=
  mkNetwork "id-1" "n1" "192.168.0.0/24" "" "gw-id" "" (Some vip1) IPv4 NETWORK_READY
    [] false "".

Definition core2 : Core Network :=
  mkCore "network" (Some net2) (Some ∅) networksFolder (Some "n1") (Some "id-1").

(** A host service that knows every reference as [host1], and the
    addresses of that host. *)
Definition loadsHost1 : list Event -> string -> option (Core unit) * option error :=
  fun _ _ => (Some host1, None).

Definition plain_PrivateIP : option (Core unit) -> string := fun _ => "192.168.0.1".
Definition plain_PublicIP : option (Core unit) -> string := fun _ => "203.0.113.1".


(** The order of a [range] loop: the first of the orders, every time. *)
Definition plain_rangeSeed : list Event -> nat := fun _ => 0%nat.

(** A second host that bears the name of [host1] under another id. *)
Definition host1b : Core unit :=
  mkCore "host" (Some tt) (Some ∅) (mkFolder "hosts") (Some "h1") (Some "h2-id").

(** A world whose storage holds the metadata of [host1] under both
    indices. *)
Definition worldHost1 : World :=
  mkWorld
    (<[("hosts", "byID", "h1-id") := list_byte_of_string "h1"]>
       (<[("hosts", "byName", "h1") := list_byte_of_string "h1"]> ∅))
    [] 0.

(** A storage that reports a failure of the struct type [ErrNotFound]
    on every operation. *)
Definition reportsNotFoundValue : list Event -> Event -> option error :=
  fun _ _ => Some (ScErr ErrNotFoundV (mkErrCore "gone" None None [] NotFound)).

(** ** Theorems: package scerr *)

Lemma Error_ScErr k c : Error (ScErr k c) = errCore_Error c.
Proof. reflexivity. Qed.

Lemma append_nil_l (s : string) : "" +:+ s = s.
Proof. reflexivity. Qed.

Lemma append_cons (a : ascii) (s t : string) : String a s +:+ t = String a (s +:+ t).
Proof. reflexivity. Qed.

Lemma append_nil_r (s : string) : s +:+ "" = s.
Proof. induction s as [|a s IH]; [reflexivity | now rewrite append_cons, IH]. Qed.

Lemma append_assoc (a b c : string) : (a +:+ b) +:+ c = a +:+ (b +:+ c).
Proof.
  induction a as [|x a IH]; [reflexivity | now rewrite !append_cons, IH].
Qed.

(** C8, as the code has it: the text of an error is its message, then
    [" [caused by {<cause>}]"] exactly when there is a cause, then
    ["[with consequences {c1;c2;...}]"] exactly when there are
    consequences, then a line break and ["With fields: "] followed by the
    JSON text of the fields (nothing when they cannot be rendered)
    exactly when the fields map is not empty. *)
Theorem Error_format (e : errCore) :
  errCore_Error e =
    Message e
      +:+ (match Causer e with
           | Some cause => " [caused by {" +:+ Error cause +:+ "}]"
           | None => ""
           end
           +:+ match consequences e with
               | [] => ""
               | _ => "[with consequences {" +:+ Join (map Error (consequences e)) ";" +:+ "}]"
               end)
      +:+ (if (0 <? len_Fields e)%nat
           then String "010"%char "With fields: "
                  +:+ match json_Marshal (Fields e) with Some j => j | None => "" end
           else "").
Proof.
  unfold errCore_Error, errCore_Error_with, CauseFormatter_with, FieldsFormatter,
    Cause_, Consequences_.
  destruct e as [msg cause flds cons code]; simpl.
  destruct cause as [cause|]; destruct cons as [|c0 cons];
    destruct (0 <? len_Fields _)%nat; simpl;
    rewrite ?append_nil_l, ?append_nil_r, ?append_assoc; reflexivity.
Qed.

(** C10: [AddConsequence] with a nil consequence returns the error as it
    is; with a non-nil consequence the consequence is appended at the end
    of the list; the message and the cause are never modified. This
    holds for the method of [errCore] and for the package-level function
    on every error that has a list of consequences; on the other errors
    the function changes nothing. *)
Theorem AddConsequence_spec :
  (forall e : errCore, errCore_AddConsequence e None = e)
  /\ (forall (e : errCore) (x : error),
        consequences (errCore_AddConsequence e (Some x)) = (consequences e ++ [x])%list)
  /\ (forall (e : errCore) (cons : option error),
        Message (errCore_AddConsequence e cons) = Message e
        /\ Causer (errCore_AddConsequence e cons) = Causer e)
  /\ (forall err : option error, AddConsequence err None = err)
  /\ (forall (k : Kind) (c : errCore) (x : error),
        Consequences (AddConsequence (Some (ScErr k c)) (Some x))
          = (Consequences (Some (ScErr k c)) ++ [x])%list
        /\ (Message <$> (AddConsequence (Some (ScErr k c)) (Some x) ≫= asError)) = Some (Message c)
        /\ (Causer <$> (AddConsequence (Some (ScErr k c)) (Some x) ≫= asError)) = Some (Causer c))
  /\ (forall (c : errCore) (errors : list error) (x : error),
        Consequences (AddConsequence (Some (MkErrList c errors)) (Some x))
          = (Consequences (Some (MkErrList c errors)) ++ [x])%list)
  /\ (forall (msg : string) (cons : option error),
        AddConsequence (Some (GoError msg)) cons = Some (GoError msg)).
Proof.
  split; [reflexivity|].
  split; [reflexivity|].
  split; [intros e [x|]; split; reflexivity|].
  split.
  { intros [e|]; [|reflexivity]. unfold AddConsequence. destruct (asError e); reflexivity. }
  split; [intros k c x; repeat split|].
  split; [reflexivity|].
  intros msg [x|]; reflexivity.
Qed.

(** ** Theorems: the gateway names of [Create] *)

(** C5, as the code has it: the primary gateway bears the explicit name
    when one is given and failover is not in effect, and
    ["gw-<networkName>"] otherwise; failover is in effect when high
    availability is asked for and the provider supports private virtual
    IPs; the secondary gateway exists exactly then, and is named
    ["gw2-<networkName>"]. *)
Theorem Create_gateway_names (req : NetworkRequest) (caps : Capabilities)
    (gwname networkName : string) :
  let failover := req_HA req && PrivateVirtualIP caps in
  Create_failover req caps = failover
  /\ ResourceName (Create_gatewayRequests req caps gwname networkName).1
     = (if failover then "gw-" +:+ networkName
        else if String.eqb gwname "" then "gw-" +:+ networkName else gwname)
  /\ ResourceName <$> (Create_gatewayRequests req caps gwname networkName).2
     = (if failover then Some ("gw2-" +:+ networkName) else None)
  /\ Create_gatewayNames (Create_failover req caps) gwname networkName
     = (if failover || String.eqb gwname "" then "gw-" +:+ networkName else gwname,
        if failover then "gw2-" +:+ networkName else "").
Proof.
  unfold Create_gatewayRequests, Create_gatewayNames, Create_failover.
  destruct (req_HA req), (PrivateVirtualIP caps), (String.eqb gwname ""); simpl; auto.
Qed.

(** ** Theorems: Core *)

Section CoreTheorems.
Context {T : Type} `{Payload T}.

Lemma populateProperties_ok (c : Core T) :
  populateProperties c
  = (None, match properties c with
           | Some _ => c
           | None => set_properties c (Some ∅)
           end).
Proof.
  unfold populateProperties, NewJSONProperties.
  destruct (properties c); reflexivity.
Qed.

Lemma populateProperties_fst (c : Core T) : (populateProperties c).1 = None.
Proof. rewrite populateProperties_ok. reflexivity. Qed.

Lemma populateProperties_preserves (c : Core T) :
  let c0 := (populateProperties c).2 in
  IsNull c0 = IsNull c /\ shielded c0 = shielded c /\ folder_ c0 = folder_ c
  /\ SafeGetID c0 = SafeGetID c /\ kind c0 = kind c /\ name c0 = name c
  /\ id_ c0 = id_ c /\ is_Some (properties c0).
Proof.
  rewrite populateProperties_ok. simpl.
  destruct c as [k sh [props|] f n i]; simpl; repeat split; eauto.
Qed.

(** A reload that succeeds read the object under [byID/<cached id>], put
    the decoded payload in place of the carried one, and did nothing
    else. *)
Lemma Reload_success (c c1 : Core T) (task : option Task) (w w1 : World) :
  Reload c task w = ((None, c1), w1) ->
  exists p p',
    shielded c = Some p /\ c1 = set_shielded c (Some p')
    /\ w1 = emit (FolderRead (path (folder_ c)) byIDFolderName (SafeGetID c)) w
    /\ IsNull c = false /\ task <> None.
Proof.
  unfold Reload, readByID, Shielded_Alter, folder_Read.
  intros Hr.
  repeat case_match; simplify_eq; eauto 10.
Qed.

(** [write] that succeeds serialised the carried payload once and stored
    that buffer under the name, then under the id. *)
Lemma write_success (c : Core T) (task : option Task) (w w' : World) :
  write c task w = (None, w') ->
  exists p buf,
    shielded c = Some p /\ Serialize p = (buf, None)
    /\ objects w'
       = <[(path (folder_ c), byIDFolderName, payload_SafeGetID p) := buf]>
           (<[(path (folder_ c), byNameFolderName, payload_SafeGetName p) := buf]> (objects w))
    /\ trace w'
       = (trace w
            ++ [FolderWrite (path (folder_ c)) byNameFolderName (payload_SafeGetName p) buf;
                FolderWrite (path (folder_ c)) byIDFolderName (payload_SafeGetID p) buf])%list.
Proof.
  unfold write, Shielded_Inspect, folder_Write.
  intros Hw.
  repeat case_match; simplify_eq; simpl in *.
  eexists _, _. repeat split; eauto.
  rewrite <- app_assoc. reflexivity.
Qed.

Lemma both_indices (objs : gmap (string * string * string) bytes)
    (pth id nm : string) (buf : bytes) :
  let objs' := <[(pth, byIDFolderName, id) := buf]> (<[(pth, byNameFolderName, nm) := buf]> objs) in
  objs' !! (pth, byIDFolderName, id) = Some buf
  /\ objs' !! (pth, byNameFolderName, nm) = Some buf.
Proof.
  simpl. split.
  - apply lookup_insert_eq.
  - rewrite lookup_insert_ne by (unfold byIDFolderName, byNameFolderName; congruence).
    apply lookup_insert_eq.
Qed.

Lemma write_indices_agree (c : Core T) (task : option Task) (w w' : World) :
  write c task w = (None, w') -> indices_agree c w'.
Proof.
  intros Hw. apply write_success in Hw as (p & buf & Hs & Hser & Hobj & Htr).
  exists p, buf. rewrite Hobj.
  destruct (both_indices (objects w) (path (folder_ c)) (payload_SafeGetID p)
              (payload_SafeGetName p) buf) as [H1 H2].
  repeat split; eauto.
Qed.

(** Once the reload has succeeded, [Alter] is the callback run through
    the shielded payload, then [write] when the callback succeeded. *)
Lemma Alter_after_reload (c c1 : Core T) (task : option Task) (fn : Callback T)
    (w w1 : World) :
  Reload (populateProperties c).2 task w = ((None, c1), w1) ->
  Alter c task (Some fn) w
  = (let '((err, sh), (props, w2)) :=
       Shielded_Alter (shielded c1) task
         (fun clonable '(props, w) =>
            let '((err, clonable', props'), w') := fn clonable props w in
            ((err, clonable'), (props', w')))
         (default ∅ (properties c1), w1) in
     let c2 := set_properties (set_shielded c1 sh) (Some props) in
     match err with
     | Some e => ((Some e, c2), w2)
     | None => let '(err, w3) := write c2 task w2 in ((err, c2), w3)
     end).
Proof.
  intros Hr.
  destruct (populateProperties_preserves c) as (Hnull & _).
  pose proof (Reload_success _ _ _ _ _ Hr) as (q & q' & _ & _ & _ & Hn & Ht).
  unfold Alter. rewrite <- Hnull, Hn.
  destruct task as [t|]; [|congruence].
  rewrite (surjective_pairing (populateProperties c)).
  rewrite populateProperties_fst.
  rewrite Hr. reflexivity.
Qed.

(** C2: when the callback returns an error, [Alter] returns that error
    and writes nothing: the world [Alter] leaves is the one the callback
    left, all that [Alter] did before the callback is the reload's read
    of [byID/<id>] (no write, storage unchanged), so an entry the
    callback leaves alone holds the bytes it had at the reload; and the
    carried payload is the just-reloaded one. *)
Theorem Alter_callback_error (c c1 : Core T) (task : option Task) (fn : Callback T)
    (w w1 w2 : World) (p p' : T) (props' : JSONProperties) (e : error) :
  Reload (populateProperties c).2 task w = ((None, c1), w1) ->
  shielded c1 = Some p ->
  fn p (default ∅ (properties c1)) w1 = ((Some e, p', props'), w2) ->
  Alter c task (Some fn) w = ((Some e, set_properties c1 (Some props')), w2)
  /\ shielded (set_properties c1 (Some props')) = Some p
  /\ objects w1 = objects w
  /\ trace w1 = (trace w ++ [FolderRead (path (folder_ c)) byIDFolderName (SafeGetID c)])%list
  /\ isWrite (FolderRead (path (folder_ c)) byIDFolderName (SafeGetID c)) = false
  /\ (forall k, objects w2 !! k = objects w1 !! k ->
        objects (Alter c task (Some fn) w).2 !! k = objects w !! k).
Proof.
  intros Hr Hs Hfn.
  destruct (populateProperties_preserves c) as (_ & _ & Hf & Hid & _).
  pose proof (Reload_success _ _ _ _ _ Hr) as (q & q' & Hq & Hc1 & Hw1 & _).
  rewrite (Alter_after_reload c c1 task fn w w1 Hr).
  unfold Shielded_Alter. rewrite Hs, Hfn.
  split; [|split; [|split; [|split; [|split]]]].
  - clear Hr Hc1. destruct c1 as [k sh pr f n i]; simpl in Hs; subst sh; reflexivity.
  - simpl. exact Hs.
  - subst w1. reflexivity.
  - subst w1. simpl. rewrite Hf, Hid. reflexivity.
  - reflexivity.
  - intros k Hk. simpl. rewrite Hk. subst w1. reflexivity.
Qed.

(** C3: after a successful [Alter], and after a successful [Carry], the
    bytes stored under [byID/<id>] and [byName/<name>] of the carried
    payload are the same: the payload is serialised once and that buffer
    is written under both indices. *)
Theorem write_path_indices_agree :
  (forall (c c' : Core T) (task : option Task) (callback : option (Callback T)) (w w' : World),
      Alter c task callback w = ((None, c'), w') -> indices_agree c' w')
  /\ (forall (c c' : Core T) (task : option Task) (clonable : option T) (w w' : World),
        Carry c task clonable w = ((None, c'), w') -> indices_agree c' w').
Proof.
  split.
  - intros c c' task callback w w'. unfold Alter.
    rewrite (surjective_pairing (populateProperties c)), populateProperties_ok. simpl.
    intros Ha. repeat case_match; simplify_eq;
      eapply write_indices_agree; eauto.
  - intros c c' task clonable w w'. unfold Carry.
    intros Hc. repeat case_match; simplify_eq;
      eapply write_indices_agree; eauto.
Qed.

(** C9: [Read] called, with a task and a non-empty reference, on an
    instance that already carries a payload fails with [NotAvailable]
    ("metadata is already carrying a value"); the world is untouched (no
    storage access) and so is the instance (payload, cached name and
    id). *)
Theorem Read_already_carrying (c : Core T) (task : option Task) (ref : string)
    (w : World) (p : T) :
  IsNull c = false -> task <> None -> ref <> "" ->
  shielded c = Some p ->
  Read c task ref w
  = ((Some (NotAvailableError "metadata is already carrying a value"), c), w).
Proof.
  intros Hn Ht Hr Hs. unfold Read. rewrite Hn.
  destruct task as [t|]; [|congruence].
  destruct (String.eqb_spec ref ""); [congruence|].
  rewrite Hs. reflexivity.
Qed.

Lemma isNotFoundValue_InvalidInstance : isNotFoundValue InvalidInstanceError = false.
Proof. reflexivity. Qed.

Lemma readByReference_nil (c : Core T) (task : option Task) (ref : string) (w : World) :
  shielded c = None ->
  readByReference c task ref w = ((Some InvalidInstanceError, c), w).
Proof.
  intros Hs. unfold readByReference, readByID, Shielded_Alter. rewrite Hs.
  rewrite isNotFoundValue_InvalidInstance. simpl.
  destruct c; simpl in *; subst; reflexivity.
Qed.

(** [Read] on an instance that carries nothing stops at the first
    attempt, without any storage access: it needs [c.shielded] to be nil
    to start, and reads through [c.shielded]. *)
Lemma Read_not_carrying (c : Core T) (task : option Task) (ref : string) (w : World) :
  IsNull c = false -> task <> None -> ref <> "" ->
  shielded c = None ->
  Read c task ref w = ((Some (StopRetryError InvalidInstanceError), c), w).
Proof.
  intros Hn Ht Hr Hs. unfold Read. rewrite Hn.
  destruct task as [t|]; [|congruence].
  destruct (String.eqb_spec ref ""); [congruence|].
  rewrite Hs. unfold WhileUnsuccessfulDelay1Second.
  change (Z.to_nat (10 * Second / Second) + 1)%nat with 11%nat.
  simpl retry_loop. rewrite (readByReference_nil c (Some t) ref w Hs).
  rewrite isNotFoundValue_InvalidInstance. reflexivity.
Qed.

(** [Read] never succeeds. *)
Lemma Read_never_succeeds (c : Core T) (task : option Task) (ref : string) (w : World) :
  (Read c task ref w).1.1 <> None.
Proof.
  destruct (IsNull c) eqn:Hn; [unfold Read; rewrite Hn; discriminate|].
  destruct task as [t|]; [|unfold Read; rewrite Hn; discriminate].
  destruct (String.eqb_spec ref "") as [->|Hr]; [unfold Read; rewrite Hn; discriminate|].
  destruct (shielded c) as [p|] eqn:Hs.
  - unfold Read. rewrite Hn, Hs.
    destruct (String.eqb_spec ref ""); [congruence | discriminate].
  - rewrite Read_not_carrying; auto; discriminate.
Qed.

Lemma Delete_success (c c' : Core T) (task : option Task) (w w' : World) :
  Delete c task w = ((None, c'), w') ->
  c' = set_shielded c None /\ IsNull c = false /\ task <> None.
Proof.
  unfold Delete. intros Hd.
  repeat case_match; simplify_eq; auto.
Qed.

(** C6, as the code has it: after a successful [Delete] the carrier is
    nil while the instance is still not the null value, and [Inspect],
    [Alter] and [Reload] called on it with a task (and a callback) report
    [InvalidInstance], without any effect on the world. *)
Theorem Delete_then_operations (c c' : Core T) (task : option Task) (w w' : World) :
  Delete c task w = ((None, c'), w') ->
  shielded c' = None /\ IsNull c' = false
  /\ forall (t : Task) (callback : Callback T) (w2 : World),
       (Inspect c' (Some t) (Some callback) w2).1.1 = Some InvalidInstanceError
       /\ (Alter c' (Some t) (Some callback) w2).1.1 = Some InvalidInstanceError
       /\ (Reload c' (Some t) w2).1.1 = Some InvalidInstanceError
       /\ (Inspect c' (Some t) (Some callback) w2).2 = w2
       /\ (Alter c' (Some t) (Some callback) w2).2 = w2
       /\ (Reload c' (Some t) w2).2 = w2.
Proof.
  intros Hd. apply Delete_success in Hd as (-> & Hn & _).
  assert (Hn' : IsNull (set_shielded c None) = false) by exact Hn.
  split; [reflexivity|]. split; [exact Hn'|].
  intros t callback w2.
  assert (Hrel : forall c0 : Core T, IsNull c0 = false -> shielded c0 = None ->
            Reload c0 (Some t) w2 = ((Some InvalidInstanceError, c0), w2)).
  { intros c0 H0 Hs0. unfold Reload, readByID, Shielded_Alter. rewrite H0, Hs0.
    rewrite isNotFoundValue_InvalidInstance. destruct c0; simpl in *; subst; reflexivity. }
  destruct (populateProperties_preserves (set_shielded c None)) as (Hnull & Hsh & _).
  assert (Hrel0 := Hrel _ (eq_trans Hnull Hn') Hsh).
  unfold Inspect, Alter. rewrite Hn'.
  rewrite (surjective_pairing (populateProperties (set_shielded c None))).
  rewrite !populateProperties_fst.
  rewrite Hrel0, (Hrel _ Hn' eq_refl). repeat split.
Qed.

Lemma index_keys_differ (c : Core T) :
  (path (folder_ c), byIDFolderName, SafeGetID c)
  <> (path (folder_ c), byNameFolderName, SafeGetName c).
Proof. unfold byIDFolderName, byNameFolderName. congruence. Qed.

(** No error that a constructor of package scerr builds passes the
    assertion to the struct type. *)
Lemma isNotFoundValue_NotFoundError (msg : string) :
  isNotFoundValue (NotFoundError msg) = false.
Proof. reflexivity. Qed.

(** [Core.Delete] touches no object but the two index entries. *)
Lemma Delete_frame (c : Core T) (task : option Task) (w : World)
    (k : string * string * string) :
  k <> (path (folder_ c), byIDFolderName, SafeGetID c) ->
  k <> (path (folder_ c), byNameFolderName, SafeGetName c) ->
  objects (Delete c task w).2 !! k = objects w !! k.
Proof.
  intros H1 H2. unfold Delete, folder_Search, folder_Delete.
  repeat case_match; simplify_eq; simpl;
    rewrite ?lookup_delete_ne by congruence; reflexivity.
Qed.

(** When the storage reports no failure of the struct type
    [ErrNotFound], a [Core.Delete] that succeeds found both index
    entries and removed them. *)
Lemma Delete_success_removes (c c' : Core T) (task : option Task) (w w' : World) :
  (forall tr ev e, storageFault tr ev = Some e -> isNotFoundValue e = false) ->
  Delete c task w = ((None, c'), w') ->
  is_Some (objects w !! (path (folder_ c), byIDFolderName, SafeGetID c))
  /\ is_Some (objects w !! (path (folder_ c), byNameFolderName, SafeGetName c))
  /\ objects w' = delete (path (folder_ c), byNameFolderName, SafeGetName c)
                    (delete (path (folder_ c), byIDFolderName, SafeGetID c) (objects w)).
Proof.
  intros Hv. unfold Delete, folder_Search, folder_Delete.
  destruct (IsNull c); [discriminate|].
  destruct task as [t|]; [|discriminate].
  destruct (storageFault (trace w) _) as [e1|] eqn:F1.
  { rewrite (Hv _ _ _ F1). discriminate. }
  destruct (objects w !! (path (folder_ c), byIDFolderName, SafeGetID c)) as [b1|] eqn:O1;
    [|discriminate].
  cbn -[delete].
  destruct (storageFault _ (FolderSearch _ byNameFolderName _)) as [e2|] eqn:F2.
  { rewrite (Hv _ _ _ F2). discriminate. }
  destruct (objects w !! (path (folder_ c), byNameFolderName, SafeGetName c)) as [b2|] eqn:O2;
    [|discriminate].
  cbn -[delete].
  destruct (storageFault _ (FolderDelete _ byIDFolderName _)) as [e3|]; [discriminate|].
  cbn -[delete].
  destruct (storageFault _ (FolderDelete _ byNameFolderName _)) as [e4|]; [discriminate|].
  cbn -[delete]. intros [= <- <-]. cbn -[delete]. eauto.
Qed.

(** With a storage that does not fail, [Core.Delete] on a valid call
    whose two index entries exist searches both, deletes both and nulls
    the carrier. *)
Lemma Delete_both_present (c : Core T) (t : Task) (w : World) :
  (forall tr ev, storageFault tr ev = None) ->
  IsNull c = false ->
  is_Some (objects w !! (path (folder_ c), byIDFolderName, SafeGetID c)) ->
  is_Some (objects w !! (path (folder_ c), byNameFolderName, SafeGetName c)) ->
  Delete c (Some t) w
  = ((None, set_shielded c None),
     mkWorld
       (delete (path (folder_ c), byNameFolderName, SafeGetName c)
          (delete (path (folder_ c), byIDFolderName, SafeGetID c) (objects w)))
       (trace w ++ [FolderSearch (path (folder_ c)) byIDFolderName (SafeGetID c);
                    FolderSearch (path (folder_ c)) byNameFolderName (SafeGetName c);
                    FolderDelete (path (folder_ c)) byIDFolderName (SafeGetID c);
                    FolderDelete (path (folder_ c)) byNameFolderName (SafeGetName c)])
       (clock w)).
Proof.
  intros Hq Hn [b1 O1] [b2 O2].
  unfold Delete, folder_Search, folder_Delete, emit. rewrite Hn.
  rewrite !Hq. cbn -[delete]. rewrite O1. cbn -[delete]. rewrite Hq, O2. cbn -[delete].
  rewrite !Hq. cbn -[delete]. rewrite <- !app_assoc. reflexivity.
Qed.

(** With a storage that does not fail, [Core.Delete] on a valid call
    with an index entry missing returns the [NotFound] of the search,
    which the assertion to the struct type does not let through, and
    deletes nothing. *)
Lemma Delete_entry_missing (c : Core T) (t : Task) (w : World) :
  (forall tr ev, storageFault tr ev = None) ->
  IsNull c = false ->
  objects w !! (path (folder_ c), byIDFolderName, SafeGetID c) = None
  \/ objects w !! (path (folder_ c), byNameFolderName, SafeGetName c) = None ->
  exists e, (Delete c (Some t) w).1 = (Some e, c)
            /\ isNotFound e = true
            /\ objects (Delete c (Some t) w).2 = objects w.
Proof.
  intros Hq Hn Hmiss.
  unfold Delete, folder_Search, folder_Delete, emit. rewrite Hn.
  rewrite !Hq.
  destruct (objects w !! (path (folder_ c), byIDFolderName, SafeGetID c)) as [b1|] eqn:O1.
  - destruct Hmiss as [Hx|O2]; [discriminate|].
    cbn -[delete]. rewrite Hq, O2. cbn -[delete]. eauto.
  - cbn -[delete]. eauto.
Qed.

End CoreTheorems.

(** ** Theorems: network *)

Lemma storageOnly_refl (w : World) : storageOnly w w.
Proof. exists []. split; [symmetry; apply app_nil_r | constructor]. Qed.

Lemma storageOnly_trans (w1 w2 w3 : World) :
  storageOnly w1 w2 -> storageOnly w2 w3 -> storageOnly w1 w3.
Proof.
  intros (o1 & H1 & F1) (o2 & H2 & F2). exists (o1 ++ o2)%list. split.
  - rewrite H2, H1, app_assoc. reflexivity.
  - apply Forall_app. split; assumption.
Qed.

Lemma folder_Search_storageOnly (f : folder) (sub key : string) (w w' : World) (e : option error) :
  folder_Search f sub key w = (e, w') -> storageOnly w w'.
Proof.
  unfold folder_Search. intros Hs. exists [FolderSearch (path f) sub key].
  repeat case_match; simplify_eq; split; try reflexivity; repeat constructor.
Qed.

Lemma folder_Delete_storageOnly (f : folder) (sub key : string) (w w' : World) (e : option error) :
  folder_Delete f sub key w = (e, w') -> storageOnly w w'.
Proof.
  unfold folder_Delete. intros Hs. exists [FolderDelete (path f) sub key].
  repeat case_match; simplify_eq; split; try reflexivity; repeat constructor.
Qed.

Ltac storage_steps :=
  repeat match goal with
         | Hx : folder_Search _ _ _ _ = _ |- _ => apply folder_Search_storageOnly in Hx
         | Hx : folder_Delete _ _ _ _ = _ |- _ => apply folder_Delete_storageOnly in Hx
         end;
  repeat (eapply storageOnly_trans; [eassumption|]);
  apply storageOnly_refl.

(** [Core.Delete] acts on the world by storage operations only. *)
Lemma Delete_trace {T : Type} (c : Core T) (task : option Task) (w : World) :
  storageOnly w (Delete c task w).2.
Proof.
  unfold Delete.
  repeat case_match; simplify_eq; simpl; storage_steps.
Qed.

(** C7: [deleteGateway] deletes the provider host, then the host's
    metadata whatever the first step gave. A [NotFound] at either step
    counts as success. Each other failure is kept, wrapped, in order,
    and the result is an error list of the kept failures exactly when
    there is one, nil otherwise. On the storage: nothing but the host's
    two index entries is touched; when the metadata step reports no
    failure the two entries were there and are gone; on a valid call
    with a storage that does not fail they are searched and deleted
    when both are there, and when one is missing the step gives a
    [NotFound], which is not kept, and deletes nothing. *)
Theorem deleteGateway_spec (task : option Task) (gw : Core HostT) (w : World) :
  let r1 := svcReply (trace w) (SvcDeleteHost (SafeGetID gw)) in
  let w1 := emit (SvcDeleteHost (SafeGetID gw)) w in
  let r2 := (Delete gw task w1).1.1 in
  let w2 := (Delete gw task w1).2 in
  let byID := (path (folder_ gw), byIDFolderName, SafeGetID gw) in
  let byName := (path (folder_ gw), byNameFolderName, SafeGetName gw) in
  (exists errors,
     deleteGateway task gw w
     = (match errors with
        | [] => None
        | _ => Some (MkErrList (mkErrCore "" None None [] OK) errors)
        end, w2)
     /\ map causeOf errors = map Some (failuresOf r1 ++ failuresOf r2)
     /\ exists ops,
          trace w2 = (trace w ++ SvcDeleteHost (SafeGetID gw) :: ops)%list
          /\ Forall (fun ev => isStorageAccess ev = true) ops)
  /\ (forall k, k <> byID -> k <> byName ->
        objects (deleteGateway task gw w).2 !! k = objects w !! k)
  /\ ((forall tr ev e, storageFault tr ev = Some e -> isNotFoundValue e = false) ->
      r2 = None ->
      is_Some (objects w !! byID) /\ is_Some (objects w !! byName)
      /\ objects (deleteGateway task gw w).2 !! byID = None
      /\ objects (deleteGateway task gw w).2 !! byName = None)
  /\ ((forall tr ev, storageFault tr ev = None) -> IsNull gw = false -> task <> None ->
      (is_Some (objects w !! byID) -> is_Some (objects w !! byName) ->
         r2 = None
         /\ objects (deleteGateway task gw w).2 = delete byName (delete byID (objects w))
         /\ trace (deleteGateway task gw w).2
            = (trace w ++ [SvcDeleteHost (SafeGetID gw);
                           FolderSearch (path (folder_ gw)) byIDFolderName (SafeGetID gw);
                           FolderSearch (path (folder_ gw)) byNameFolderName (SafeGetName gw);
                           FolderDelete (path (folder_ gw)) byIDFolderName (SafeGetID gw);
                           FolderDelete (path (folder_ gw)) byNameFolderName
                             (SafeGetName gw)])%list)
      /\ (objects w !! byID = None \/ objects w !! byName = None ->
            failuresOf r2 = []
            /\ objects (deleteGateway task gw w).2 = objects w)).
Proof.
  intros r1 w1 r2 w2 byID byName.
  assert (Hw2 : (deleteGateway task gw w).2 = w2).
  { unfold deleteGateway, svc_DeleteHost. fold r1 w1. subst w2.
    destruct (Delete gw task w1) as [[x gw'] w']. simpl.
    destruct (0 <? _)%nat; reflexivity. }
  rewrite Hw2.
  split; [|split; [|split]].
  - exists (deleteGateway_hostErrors (SafeGetName gw) r1
              ++ deleteGateway_metadataErrors (SafeGetName gw) r2)%list.
    split; [|split].
    + unfold deleteGateway, svc_DeleteHost. fold r1 w1.
      destruct (Delete gw task w1) as [[x gw'] w'] eqn:Hd.
      subst r2 w2. simpl.
      destruct (_ ++ _)%list; reflexivity.
    + unfold deleteGateway_hostErrors, deleteGateway_metadataErrors, failuresOf.
      destruct r1 as [e1|], r2 as [e2|]; repeat case_match; reflexivity.
    + destruct (Delete_trace gw task w1) as (ops & Ht & Hops).
      exists ops. split; [|exact Hops].
      subst w2. rewrite Ht. subst w1. simpl. rewrite <- app_assoc. reflexivity.
  - intros k H1 H2. subst w2. rewrite (Delete_frame gw task w1 k H1 H2). reflexivity.
  - intros Hv Hr2. subst r2 w2.
    destruct (Delete gw task w1) as [[x gw'] w'] eqn:Hd. simpl in Hr2. subst x.
    destruct (Delete_success_removes gw gw' task w1 w' Hv Hd) as (Hi & Hn & Ho).
    simpl. rewrite Ho. split; [exact Hi|]. split; [exact Hn|]. split.
    + rewrite lookup_delete_ne
        by (intros Hx; symmetry in Hx; exact (index_keys_differ gw Hx)).
      apply lookup_delete_eq.
    + apply lookup_delete_eq.
  - intros Hq Hnull Ht. destruct task as [t|]; [|congruence]. split.
    + intros Hi Hn. subst r2 w2.
      rewrite (Delete_both_present gw t w1 Hq Hnull Hi Hn). simpl.
      split; [reflexivity|]. split; [reflexivity|].
      rewrite <- !app_assoc. reflexivity.
    + intros Hmiss. subst r2 w2.
      destruct (Delete_entry_missing gw t w1 Hq Hnull Hmiss) as (e & He & Hnf & Ho).
      rewrite Ho. split; [|reflexivity].
      rewrite He. simpl. rewrite Hnf. reflexivity.
Qed.

Lemma rangeKeys_Permutation (m : gmap string string) (w : World) :
  rangeKeys m w ≡ₚ (map_to_list m).*1.
Proof.
  unfold rangeKeys.
  destruct (permutations _ !! _) as [l|] eqn:Hl; simpl; [|reflexivity].
  apply list_elem_of_lookup_2 in Hl. apply permutations_Permutation in Hl.
  symmetry. exact Hl.
Qed.

Lemma rangeKeys_spec (m : gmap string string) (w : World) (k : string) :
  k ∈ rangeKeys m w <-> is_Some (m !! k).
Proof.
  rewrite (rangeKeys_Permutation m w), list_elem_of_fmap. split.
  - intros ([k' v] & -> & Hin). apply elem_of_map_to_list in Hin. eauto.
  - intros [v Hv]. exists (k, v). split; [reflexivity|]. now apply elem_of_map_to_list.
Qed.

(** C1, as the code has it: [network.Delete], called with a task on a
    network whose metadata can be reloaded and whose [hosts.v1]
    property has a name in its [ByName] map, returns [NotAvailable]
    with a message that counts the names and lists them, each once, in
    the order the [range] loop visits them; the reload's read of
    [byID/<id>] is all it did: no provider call, and the storage is as
    it was. The [ByID] map is not looked at. *)
Theorem network_Delete_refuses (objn c1 : Core Network) (t : Task) (w w1 : World)
    (props : JSONProperties) (hosts : NetworkHosts) (an : Network) :
  Reload (populateProperties objn).2 (Some t) w = ((None, c1), w1) ->
  shielded c1 = Some an ->
  properties objn = Some props ->
  props !! HostsV1 = Some (NetworkHostsV1 hosts) ->
  ByName hosts <> ∅ ->
  let n := size (ByName hosts) in
  let msg :=
    "cannot delete network '" +:+ Name an +:+ "': " +:+ fmt_uint n
      +:+ " host" +:+ Plural n +:+ " " +:+ (if (n =? 1)%nat then "is" else "are")
      +:+ " still attached to it: " +:+ Join (rangeKeys (ByName hosts) w1) ", " in
  (network_Delete objn (Some t) w).1.1 = Some (NotAvailableError msg)
  /\ (network_Delete objn (Some t) w).2 = w1
  /\ rangeKeys (ByName hosts) w1 ≡ₚ (map_to_list (ByName hosts)).*1
  /\ (forall name : string,
        name ∈ rangeKeys (ByName hosts) w1 <-> is_Some (ByName hosts !! name))
  /\ trace w1 = (trace w ++ [FolderRead (path (folder_ objn)) byIDFolderName (SafeGetID objn)])%list
  /\ isProviderCall (FolderRead (path (folder_ objn)) byIDFolderName (SafeGetID objn)) = false
  /\ objects w1 = objects w.
Proof.
  intros Hr Hs Hp Hh Hne n msg.
  assert (Hprops : properties c1 = Some props).
  { apply Reload_success in Hr as (q & q' & _ & -> & _).
    rewrite populateProperties_ok, Hp. simpl. exact Hp. }
  assert (Hpos : (0 <? n)%nat = true).
  { apply Nat.ltb_lt. subst n. destruct (size (ByName hosts)) eqn:Hz; [|lia].
    apply map_size_empty_iff in Hz. contradiction. }
  assert (Hfn : Delete_callback t an (default ∅ (properties c1)) w1
                = ((Some (NotAvailableError msg), an, props), w1)).
  { rewrite Hprops. simpl. unfold Delete_callback, props_Inspect. rewrite Hh.
    unfold Delete_checkHosts. fold n. rewrite Hpos. reflexivity. }
  pose proof (Alter_after_reload objn c1 (Some t) (Delete_callback t) w w1 Hr) as Ha.
  unfold Shielded_Alter in Ha. rewrite Hs, Hfn in Ha.
  pose proof (Reload_success _ _ _ _ _ Hr) as (_ & _ & _ & _ & Hw1 & Hn & _).
  destruct (populateProperties_preserves objn) as (Hnull & _ & Hf & Hid & _).
  unfold network_Delete. rewrite <- Hnull, Hn, Ha. simpl.
  split; [reflexivity|]. split; [reflexivity|].
  split; [apply rangeKeys_Permutation|].
  split; [intros name; apply rangeKeys_spec|].
  split; [subst w1; simpl; rewrite Hf, Hid; reflexivity|].
  split; [reflexivity | subst w1; reflexivity].
Qed.

(** ** Further theorems: package scerr *)

(** Induction along the chain of causes. *)
Lemma error_cause_ind (P : error -> Prop) :
  (forall msg, P (GoError msg)) ->
  (forall k c, (forall e', Causer c = Some e' -> P e') -> P (ScErr k c)) ->
  (forall c l, (forall e', Causer c = Some e' -> P e') -> P (MkErrList c l)) ->
  forall e, P e.
Proof.
  intros Hg Hs Hl. fix IH 1. intros [msg|k c|c l].
  - apply Hg.
  - apply Hs. destruct c as [m [ca|] f cs code]; simpl; intros e' He.
    + injection He as <-. apply IH.
    + discriminate He.
  - apply Hl. destruct c as [m [ca|] f cs code]; simpl; intros e' He.
    + injection He as <-. apply IH.
    + discriminate He.
Qed.

Lemma deepestCause_no_cause (e : error) : (asError (deepestCause e) ≫= Causer) = None.
Proof.
  induction e as [msg|k c IH|c l IH] using error_cause_ind; [reflexivity| |];
    simpl; destruct (Causer c) as [ca|] eqn:Hc; auto; simpl; rewrite Hc; reflexivity.
Qed.

Lemma deepestCause_idem (e : error) : deepestCause (deepestCause e) = deepestCause e.
Proof.
  induction e as [msg|k c IH|c l IH] using error_cause_ind; [reflexivity| |];
    simpl; destruct (Causer c) as [ca|] eqn:Hc; auto; simpl; rewrite Hc; reflexivity.
Qed.

(** X1: package-level [Cause] gives the deepest cause: the error it
    returns has no cause of its own, applying [Cause] again changes
    nothing, [Cause] looks through [Wrap], and an error that is not an
    [Error] (or nil) is its own cause. *)
Theorem Cause_deepest :
  (forall e : error, ((Cause (Some e) ≫= asError) ≫= Causer) = None)
  /\ (forall err : option error, Cause (Cause err) = Cause err)
  /\ (forall (c : error) (m : string), Cause (Some (Wrap (Some c) m)) = Cause (Some c))
  /\ (forall m : string, Cause (Some (Wrap None m)) = Some (Wrap None m))
  /\ (forall msg : string, Cause (Some (GoError msg)) = Some (GoError msg))
  /\ Cause None = None.
Proof.
  split; [|split; [|split; [|split; [|split]]]]; try reflexivity.
  - intros e. simpl. apply deepestCause_no_cause.
  - intros [e|]; [|reflexivity]. simpl. f_equal. apply deepestCause_idem.
Qed.

(** X2: [WithField] records the value under the key and leaves the other
    keys, the message, the cause, the consequences and the gRPC code as
    they were; on an error whose fields map is nil (as [Wrap] builds
    it) it records nothing; the package-level function with an empty key
    returns the error as it is. *)
Theorem WithField_records (e : errCore) (key : string) (v : GoValue) :
  (forall m, Fields e = Some m ->
     exists m', Fields (errCore_WithField e key v) = Some m'
                /\ m' !! key = Some v
                /\ forall k', k' <> key -> m' !! k' = m !! k')
  /\ (Fields e = None -> errCore_WithField e key v = e)
  /\ Message (errCore_WithField e key v) = Message e
  /\ Causer (errCore_WithField e key v) = Causer e
  /\ consequences (errCore_WithField e key v) = consequences e
  /\ grpcCode (errCore_WithField e key v) = grpcCode e
  /\ (forall (cause : option error) (msg : string),
        ((WithField (Some (Wrap cause msg)) key v ≫= asError) ≫= Fields) = None)
  /\ (forall err : option error, WithField err "" v = err).
Proof.
  unfold errCore_WithField.
  split; [|split; [|split; [|split; [|split; [|split; [|split]]]]]].
  - intros m Hm. rewrite Hm. exists (<[key := v]> m). split; [reflexivity|]. split.
    + apply lookup_insert_eq.
    + intros k' Hk. apply lookup_insert_ne. congruence.
  - intros Hn. rewrite Hn. reflexivity.
  - destruct (Fields e); reflexivity.
  - destruct (Fields e); reflexivity.
  - destruct (Fields e); reflexivity.
  - destruct (Fields e); reflexivity.
  - intros cause msg. unfold WithField. simpl. destruct (negb (String.eqb key "")); reflexivity.
  - intros [err|]; [|reflexivity]. unfold WithField. destruct (asError err); reflexivity.
Qed.

(** X3: [Reset] takes the message, the cause and the consequences of a
    bare [errCore] and keeps the receiver's fields and gRPC code; with
    nil, with an error that does not implement [Error], with an error
    list or with an error of any typed kind the receiver is unchanged. *)
Theorem Reset_imports (e : errCore) :
  (forall c : errCore,
     let r := errCore_Reset e (Some (ScErr errCoreK c)) in
     Message r = Message c /\ Causer r = Causer c /\ consequences r = consequences c
     /\ Fields r = Fields e /\ grpcCode r = grpcCode e)
  /\ errCore_Reset e None = e
  /\ (forall msg, errCore_Reset e (Some (GoError msg)) = e)
  /\ (forall c l, errCore_Reset e (Some (MkErrList c l)) = e)
  /\ (forall k c, k <> errCoreK -> errCore_Reset e (Some (ScErr k c)) = e).
Proof.
  split; [|split; [|split; [|split]]]; try reflexivity.
  - intros c. simpl. repeat split.
  - intros k c Hk. destruct k; try reflexivity. congruence.
Qed.


(** X5: the text of a wrapped error is the wrapper's message followed by
    the text of the cause between [" [caused by {"] and ["}]"], at every
    level of wrapping; an error just built by a constructor prints as its
    message alone, and a consequence added to it shows after the message
    between ["[with consequences {"] and ["}]"]. *)
Theorem Error_of_Wrap (cause : error) (m1 m2 msg : string) (x : error) :
  Error (Wrap (Some cause) m1) = m1 +:+ " [caused by {" +:+ Error cause +:+ "}]"
  /\ Error (Wrap (Some (Wrap (Some cause) m1)) m2)
     = m2 +:+ " [caused by {" +:+ (m1 +:+ " [caused by {" +:+ Error cause +:+ "}]") +:+ "}]"
  /\ Error (Wrap None msg) = msg
  /\ Error (NotFoundError msg) = msg
  /\ (Error <$> AddConsequence (Some (NotFoundError msg)) (Some x))
     = Some (msg +:+ "[with consequences {" +:+ Error x +:+ "}]").
Proof.
  assert (Hw : forall c m, Error (Wrap (Some c) m) = m +:+ " [caused by {" +:+ Error c +:+ "}]").
  { intros c m. simpl. unfold errCore_Error_with, CauseFormatter_with. simpl.
    rewrite ?append_nil_l. reflexivity. }
  split; [apply Hw|]. split; [rewrite Hw, Hw; reflexivity|].
  split; [|split].
  - simpl. unfold errCore_Error_with, CauseFormatter_with. simpl. apply append_nil_r.
  - simpl. unfold errCore_Error_with, CauseFormatter_with. simpl. apply append_nil_r.
  - simpl. unfold errCore_Error_with, CauseFormatter_with. simpl.
    rewrite ?append_nil_l. reflexivity.
Qed.

(** ** Further theorems: Core *)

Section CoreMore.
Context {T : Type} `{Payload T}.

Lemma set_shielded_same (c : Core T) (p : T) :
  shielded c = Some p -> set_shielded c (Some p) = c.
Proof. destruct c as [k sh pr f n i]. simpl. intros ->. reflexivity. Qed.

Lemma eqb_false_of_ne (a b : string) : a <> b -> String.eqb a b = false.
Proof. intros Hne. destruct (String.eqb_spec a b); [contradiction | reflexivity]. Qed.

(** X6: [NewCore] with a nil service, an empty kind or an empty path
    gives an [InvalidParameter] error, and with a folder that cannot be
    made the error of [newFolder]; whenever it gives an error the
    instance it gives is the null one. Otherwise it gives, without
    error, an instance of that kind over the folder of that path that
    carries nothing and has no cached name or id. The kind ["nil"] is
    accepted (no error), and the instance it gives is a null one. *)
Theorem NewCore_result (svc : option Service) (kind path : string) :
  (svc = None \/ kind = "" \/ path = "" ->
     exists e, NewCore (T := T) svc kind path = (nullCore, Some e)
               /\ kindOf e = Some ErrInvalidParameter)
  /\ (forall e, svc <> None -> kind <> "" -> path <> "" ->
        newFolder_fault path = Some e ->
        NewCore (T := T) svc kind path = (nullCore, Some e))
  /\ ((NewCore (T := T) svc kind path).2 <> None ->
        (NewCore (T := T) svc kind path).1 = nullCore
        /\ IsNull (NewCore (T := T) svc kind path).1 = true)
  /\ (svc <> None -> kind <> "" -> path <> "" -> newFolder_fault path = None ->
        NewCore (T := T) svc kind path
        = (mkCore kind None (Some ∅) (mkFolder path) None None, None)
        /\ IsNull (NewCore (T := T) svc kind path).1 = String.eqb kind "nil").
Proof.
  unfold NewCore, newFolder, NewJSONProperties.
  split; [|split; [|split]].
  - intros [-> | [-> | ->]].
    + eexists. split; reflexivity.
    + destruct svc; eexists; split; reflexivity.
    + destruct svc; [destruct (String.eqb kind "")|]; eexists; split; reflexivity.
  - intros e Hs Hk Hp Hf. destruct svc as [s|]; [|congruence].
    rewrite (eqb_false_of_ne _ _ Hk), (eqb_false_of_ne _ _ Hp), Hf. reflexivity.
  - destruct svc as [s|]; [|split; reflexivity].
    destruct (String.eqb kind ""); [split; reflexivity|].
    destruct (String.eqb path ""); [split; reflexivity|].
    destruct (newFolder_fault path); [split; reflexivity|].
    simpl. congruence.
  - intros Hs Hk Hp Hf. destruct svc as [s|]; [|congruence].
    rewrite (eqb_false_of_ne _ _ Hk), (eqb_false_of_ne _ _ Hp), Hf.
    split; [reflexivity|]. unfold IsNull. simpl.
    rewrite (eqb_false_of_ne _ _ Hk). reflexivity.
Qed.

(** X7: [Carry] on an instance that already carries a payload fails with
    [NotAvailable] ("already carrying a shielded value"); the instance
    and the world (hence the storage) are untouched. *)
Theorem Carry_already_carrying (c : Core T) (task : option Task) (p q : T) (w : World) :
  IsNull c = false -> task <> None ->
  shielded c = Some p ->
  Carry c task (Some q) w
  = ((Some (NotAvailableError "already carrying a shielded value"), c), w).
Proof.
  intros Hn Ht Hs. unfold Carry. rewrite Hn.
  destruct task as [t|]; [|congruence].
  rewrite Hs. reflexivity.
Qed.

(** X8: after a successful [Carry] the instance carries the payload it
    was given, its cached id and name are the payload's (what [SafeGetID]
    and [SafeGetName] return), and its kind, folder and properties are
    as before. *)
Theorem Carry_caches_identity (c c' : Core T) (task : option Task) (p : T) (w w' : World) :
  Carry c task (Some p) w = ((None, c'), w') ->
  shielded c' = Some p
  /\ SafeGetID c' = payload_SafeGetID p
  /\ SafeGetName c' = payload_SafeGetName p
  /\ kind c' = kind c /\ folder_ c' = folder_ c /\ properties c' = properties c
  /\ shielded c = None.
Proof.
  unfold Carry, updateIdentity, Shielded_Inspect, set_shielded, SafeGetID, SafeGetName.
  intros Hc.
  destruct (IsNull c) eqn:Hn; [simplify_eq|].
  destruct task as [t|]; [|simplify_eq].
  destruct (shielded c) eqn:Hs; [simplify_eq|].
  simpl in Hc. destruct (negb isIdentifyable); simpl in Hc; [simplify_eq|].
  destruct (write _ _ _) as [e w1] eqn:Hw. simplify_eq.
  unfold IsNull in *. simpl. rewrite Hn. repeat split.
Qed.

(** X9: a [Carry] that gets past its checks leaves the instance carrying
    the payload even when it fails (the payload is pinned before the
    identity is read and the metadata written): after such a failure
    [Carry] cannot be tried again on the instance, it reports
    [NotAvailable]. *)
Theorem Carry_failure_pins_payload (c : Core T) (t : Task) (p : T) (w : World) (e : error) :
  IsNull c = false -> shielded c = None ->
  (Carry c (Some t) (Some p) w).1.1 = Some e ->
  shielded (Carry c (Some t) (Some p) w).1.2 = Some p
  /\ forall (q : T) (w2 : World),
       (Carry (Carry c (Some t) (Some p) w).1.2 (Some t) (Some q) w2).1.1
       = Some (NotAvailableError "already carrying a shielded value").
Proof.
  intros Hn Hs He.
  assert (Hpin : shielded (Carry c (Some t) (Some p) w).1.2 = Some p
                 /\ IsNull (Carry c (Some t) (Some p) w).1.2 = false).
  { unfold Carry, updateIdentity, Shielded_Inspect, set_shielded. rewrite Hn, Hs. simpl.
    destruct (negb isIdentifyable); simpl; [split; [reflexivity | exact Hn]|].
    destruct (write _ _ _) as [e1 w1]. simpl. split; [reflexivity | exact Hn]. }
  destruct Hpin as [Hp Hn']. split; [exact Hp|].
  intros q w2. unfold Carry at 1. rewrite Hn', Hp. reflexivity.
Qed.

(** Once the reload has succeeded, [Inspect] is the callback run on the
    reloaded payload; what the callback does to the payload is dropped. *)
Lemma Inspect_after_reload (c c1 : Core T) (task : option Task) (fn : Callback T)
    (w w1 w2 : World) (p p' : T) (props' : JSONProperties) (r : option error) :
  Reload (populateProperties c).2 task w = ((None, c1), w1) ->
  shielded c1 = Some p ->
  fn p (default ∅ (properties c1)) w1 = ((r, p', props'), w2) ->
  Inspect c task (Some fn) w = ((r, set_properties c1 (Some props')), w2).
Proof.
  intros Hr Hs Hfn.
  destruct (populateProperties_preserves c) as (Hnull & _).
  pose proof (Reload_success _ _ _ _ _ Hr) as (q & q' & _ & _ & _ & Hn & Ht).
  unfold Inspect. rewrite <- Hnull, Hn.
  destruct task as [t|]; [|congruence].
  rewrite (surjective_pairing (populateProperties c)).
  rewrite populateProperties_fst.
  rewrite Hr. unfold Shielded_Inspect. rewrite Hs, Hfn. reflexivity.
Qed.

(** X10: [Inspect] gives back what the callback returns (error or not)
    and never writes: the world it leaves is the one the callback left,
    before the callback it only read [byID/<id>], and whatever the
    callback did to the payload it was given, the instance carries the
    reloaded payload. *)
Theorem Inspect_read_only (c c1 : Core T) (task : option Task) (fn : Callback T)
    (w w1 w2 : World) (p p' : T) (props' : JSONProperties) (r : option error) :
  Reload (populateProperties c).2 task w = ((None, c1), w1) ->
  shielded c1 = Some p ->
  fn p (default ∅ (properties c1)) w1 = ((r, p', props'), w2) ->
  (Inspect c task (Some fn) w).1.1 = r
  /\ (Inspect c task (Some fn) w).2 = w2
  /\ shielded (Inspect c task (Some fn) w).1.2 = Some p
  /\ properties (Inspect c task (Some fn) w).1.2 = Some props'
  /\ objects w1 = objects w
  /\ trace w1 = (trace w ++ [FolderRead (path (folder_ c)) byIDFolderName (SafeGetID c)])%list.
Proof.
  intros Hr Hs Hfn.
  rewrite (Inspect_after_reload c c1 task fn w w1 w2 p p' props' r Hr Hs Hfn).
  destruct (populateProperties_preserves c) as (_ & _ & Hf & Hid & _).
  pose proof (Reload_success _ _ _ _ _ Hr) as (q & q' & _ & _ & Hw1 & _).
  simpl. repeat split; auto.
  - subst w1. reflexivity.
  - subst w1. simpl. rewrite Hf, Hid. reflexivity.
Qed.

(** X11: [Reload] gives back the failure of the read by id as it is,
    unless that failure has the struct type [ErrNotFound], which no
    constructor builds: the [NotFound] of a [byID/<id>] object that is
    gone is the folder's own, not the message "the metadata of <kind>
    '<name>' vanished". That message stands only for a failure of the
    struct type, with the name printed as the atomic value it is. In
    every case the instance is unchanged and one read was done. *)
Theorem Reload_read_failure (c : Core T) (t : Task) (p : T) (w : World) :
  IsNull c = false -> shielded c = Some p -> isSerializable = true ->
  let ev := FolderRead (path (folder_ c)) byIDFolderName (SafeGetID c) in
  (storageFault (trace w) ev = None ->
   objects w !! (path (folder_ c), byIDFolderName, SafeGetID c) = None ->
   exists e,
     (folder_Read (folder_ c) byIDFolderName (SafeGetID c) Deserialize p w).1.1 = Some e
     /\ isNotFound e = true
     /\ Reload c (Some t) w = ((Some e, c), emit ev w))
  /\ (forall e, storageFault (trace w) ev = Some e -> isNotFoundValue e = false ->
        Reload c (Some t) w = ((Some e, c), emit ev w))
  /\ (forall e, storageFault (trace w) ev = Some e -> isNotFoundValue e = true ->
        Reload c (Some t) w
        = ((Some (NotFoundError ("the metadata of " +:+ kind c +:+ " '"
                                   +:+ fmt_atomic_Value (name c) +:+ "' vanished")), c),
           emit ev w))
  /\ (forall msg, isNotFoundValue (NotFoundError msg) = false).
Proof.
  intros Hn Hs Hser ev. unfold Reload, readByID, Shielded_Alter, folder_Read.
  rewrite Hn, Hs, Hser. fold ev. split; [|split; [|split]]; [| | |reflexivity].
  - intros Hf Ho. rewrite Hf, Ho. simpl. rewrite (set_shielded_same c p Hs).
    eexists. split; [reflexivity|]. split; reflexivity.
  - intros e Hf He. rewrite Hf. simpl. rewrite He, (set_shielded_same c p Hs). reflexivity.
  - intros e Hf He. rewrite Hf. simpl. rewrite He, (set_shielded_same c p Hs). reflexivity.
Qed.

(** X12: with a storage that does not fail, [Delete] on a valid call
    succeeds when both index entries are there: the carrier is then
    nil, [byID/<id>] and [byName/<name>] are gone and every other
    object is untouched. When one of the two entries is missing it
    returns the [NotFound] of the search and deletes nothing, the entry
    that is there included: the search failure is a [*ErrNotFound],
    which the assertion to the struct type does not let through. *)
Theorem Delete_needs_both_indices (c : Core T) (t : Task) (w : World) :
  (forall tr ev, storageFault tr ev = None) ->
  IsNull c = false ->
  let byID := (path (folder_ c), byIDFolderName, SafeGetID c) in
  let byName := (path (folder_ c), byNameFolderName, SafeGetName c) in
  let w' := (Delete c (Some t) w).2 in
  (is_Some (objects w !! byID) -> is_Some (objects w !! byName) ->
     (Delete c (Some t) w).1 = (None, set_shielded c None)
     /\ objects w' !! byID = None
     /\ objects w' !! byName = None)
  /\ (objects w !! byID = None \/ objects w !! byName = None ->
      exists e, (Delete c (Some t) w).1 = (Some e, c)
                /\ isNotFound e = true
                /\ objects w' = objects w)
  /\ (forall k, k <> byID -> k <> byName -> objects w' !! k = objects w !! k).
Proof.
  intros Hq Hn byID byName w'. subst w'. split; [|split].
  - intros Hi Hm. rewrite (Delete_both_present c t w Hq Hn Hi Hm). simpl.
    split; [reflexivity|]. split.
    + rewrite lookup_delete_ne
        by (intros Hx; symmetry in Hx; exact (index_keys_differ c Hx)).
      apply lookup_delete_eq.
    + apply lookup_delete_eq.
  - intros Hmiss. exact (Delete_entry_missing c t w Hq Hn Hmiss).
  - intros k H1 H2. exact (Delete_frame c (Some t) w k H1 H2).
Qed.

(** X13: a [Delete] that fails leaves the instance as it was, payload
    included (the carrier is nulled only after both deletions went
    through). *)
Theorem Delete_failure_keeps_instance (c c' : Core T) (task : option Task)
    (w w' : World) (e : error) :
  Delete c task w = ((Some e, c'), w') -> c' = c.
Proof.
  unfold Delete. intros Hd.
  repeat case_match; simplify_eq; reflexivity.
Qed.

(** X14: on an instance that carries a payload, [readByReference]
    takes the reference as an id: when [byID/<ref>] is there it is the
    one decoded, and [byName] is not read, even if decoding fails. When
    [byID/<ref>] is not there the [NotFound] of that read is returned
    and [byName/<ref>] is not read either, whether it is there or not:
    the failure is a [*ErrNotFound], which the assertion to the struct
    type does not let through. The read by name is run only after a
    failure of the struct type [ErrNotFound], which no constructor
    builds. The carried payload changes only when a decoding succeeds. *)
Theorem readByReference_by_id (c : Core T) (task : option Task) (ref : string)
    (p : T) (w : World) :
  shielded c = Some p -> isSerializable = true ->
  let byID := (path (folder_ c), byIDFolderName, ref) in
  let ev := FolderRead (path (folder_ c)) byIDFolderName ref in
  let w1 := emit ev w in
  (forall buf q, storageFault (trace w) ev = None ->
     objects w !! byID = Some buf -> Deserialize buf p = (None, q) ->
     readByReference c task ref w = ((None, set_shielded c (Some q)), w1))
  /\ (forall buf q e, storageFault (trace w) ev = None ->
        objects w !! byID = Some buf -> Deserialize buf p = (Some e, q) ->
        isNotFoundValue e = false ->
        readByReference c task ref w = ((Some e, c), w1))
  /\ (storageFault (trace w) ev = None -> objects w !! byID = None ->
        exists e, readByReference c task ref w = ((Some e, c), w1)
                  /\ isNotFound e = true)
  /\ (forall e, storageFault (trace w) ev = Some e -> isNotFoundValue e = false ->
        readByReference c task ref w = ((Some e, c), w1))
  /\ (forall e, storageFault (trace w) ev = Some e -> isNotFoundValue e = true ->
        readByReference c task ref w = readByName c task ref w1).
Proof.
  intros Hs Hser byID ev w1. subst byID w1.
  unfold readByReference, readByID, Shielded_Alter, folder_Read.
  rewrite Hs, Hser. fold ev.
  split; [|split; [|split; [|split]]].
  - intros buf q Hf Ho Hd. rewrite Hf, Ho, Hd. reflexivity.
  - intros buf q e Hf Ho Hd He. rewrite Hf, Ho, Hd. simpl. rewrite He. simpl.
    rewrite (set_shielded_same c p Hs). reflexivity.
  - intros Hf Ho. rewrite Hf, Ho. simpl. rewrite (set_shielded_same c p Hs).
    eexists. split; reflexivity.
  - intros e Hf He. rewrite Hf. simpl. rewrite He. simpl.
    rewrite (set_shielded_same c p Hs). reflexivity.
  - intros e Hf He. rewrite Hf. simpl. rewrite He. simpl.
    rewrite (set_shielded_same c p Hs). reflexivity.
Qed.

End CoreMore.

(** ** Further theorems: network *)

Lemma Reload_frame {T : Type} `{Payload T} (c : Core T) (task : option Task) (w : World) :
  let c' := (Reload c task w).1.2 in
  kind c' = kind c /\ folder_ c' = folder_ c /\ name c' = name c /\ id_ c' = id_ c
  /\ properties c' = properties c.
Proof.
  unfold Reload, readByID.
  destruct (IsNull c); [repeat split|].
  destruct task as [t|]; [|repeat split].
  destruct (Shielded_Alter _ _ _ _) as [[e sh] w1].
  destruct e as [e|]; [destruct (isNotFoundValue e)|]; repeat split.
Qed.

(** [Alter] never changes the kind, the folder or the cached name and id
    of the instance. *)
Lemma Alter_frame {T : Type} `{Payload T} (c : Core T) (task : option Task)
    (callback : option (Callback T)) (w : World) :
  let c' := (Alter c task callback w).1.2 in
  kind c' = kind c /\ folder_ c' = folder_ c /\ name c' = name c /\ id_ c' = id_ c.
Proof.
  unfold Alter.
  destruct (IsNull c); [repeat split|].
  destruct task as [t|]; [|repeat split].
  destruct callback as [cb|]; [|repeat split].
  rewrite (surjective_pairing (populateProperties c)), populateProperties_fst.
  destruct (populateProperties_preserves c) as (_ & _ & Hf & _ & Hk & Hnm & Hid & _).
  pose proof (Reload_frame (populateProperties c).2 (Some t) w) as (Rk & Rf & Rn & Ri & _).
  destruct (Reload (populateProperties c).2 (Some t) w) as [[e c1] w1]. simpl in *.
  destruct e as [e|]; [simpl; repeat split; congruence|].
  destruct (Shielded_Alter _ _ _ _) as [[e sh] [props w2]].
  destruct e as [e|]; [simpl; repeat split; congruence|].
  destruct (write _ _ _) as [e w3]. simpl. repeat split; congruence.
Qed.

(** What a successful [Alter] went through. *)
Lemma Alter_success_inv {T : Type} `{Payload T} (c c' : Core T) (task : option Task)
    (fn : Callback T) (w w' : World) :
  Alter c task (Some fn) w = ((None, c'), w') ->
  exists c1 w1 p p' props' w2,
    Reload (populateProperties c).2 task w = ((None, c1), w1)
    /\ shielded c1 = Some p
    /\ properties c1 = properties (populateProperties c).2
    /\ fn p (default ∅ (properties c1)) w1 = ((None, p', props'), w2)
    /\ c' = set_properties (set_shielded c1 (Some p')) (Some props')
    /\ write c' task w2 = (None, w').
Proof.
  intros Ha.
  destruct (Reload (populateProperties c).2 task w) as [[e c1] w1] eqn:Hr.
  destruct e as [e|].
  - exfalso. unfold Alter in Ha.
    rewrite (surjective_pairing (populateProperties c)), populateProperties_fst, Hr in Ha.
    repeat case_match; simplify_eq.
  - rewrite (Alter_after_reload c c1 task fn w w1 Hr) in Ha.
    pose proof (Reload_success _ _ _ _ _ Hr) as (q & q' & Hq & Hc1 & _).
    assert (Hs : shielded c1 = Some q') by (rewrite Hc1; reflexivity).
    assert (Hp : properties c1 = properties (populateProperties c).2)
      by (rewrite Hc1; reflexivity).
    unfold Shielded_Alter in Ha. rewrite Hs in Ha.
    destruct (fn q' (default ∅ (properties c1)) w1) as [[[r p'] props'] w2] eqn:Hfn.
    destruct r as [r|]; [discriminate Ha|].
    destruct (write _ _ _) as [e w3] eqn:Hw. injection Ha as -> <- <-.
    exists c1, w1, q', p', props', w2. repeat split; auto.
Qed.

(** The properties an instance works with once they are populated. *)
Lemma populated_properties {T : Type} (c : Core T) :
  default ∅ (properties (populateProperties c).2) = default ∅ (properties c).
Proof.
  unfold populateProperties, NewJSONProperties.
  destruct (properties c) eqn:Hp; simpl; rewrite ?Hp; reflexivity.
Qed.

(** What a successful [AttachHost] did to the properties. *)
Lemma AttachHost_effect (objn c' : Core Network) (t : Task) (host : Core HostT)
    (w w' : World) :
  AttachHost objn (Some t) (Some host) w = ((None, c'), w') ->
  exists h,
    default (zeroProperty HostsV1) (default ∅ (properties objn) !! HostsV1) = NetworkHostsV1 h
    /\ properties c'
       = Some (<[HostsV1 :=
                   NetworkHostsV1
                     (mkNetworkHosts (<[SafeGetID host := SafeGetName host]> (ByID h))
                        (<[SafeGetName host := SafeGetID host]> (ByName h)))]>
                 (default ∅ (properties objn))).
Proof.
  unfold AttachHost. destruct (IsNull objn); [intros; simplify_eq|].
  intros Ha. apply Alter_success_inv in Ha
    as (c1 & w1 & p & p' & props' & w2 & _ & _ & Hp & Hfn & -> & _).
  rewrite Hp, populated_properties in Hfn. unfold props_Alter in Hfn.
  destruct (default (zeroProperty HostsV1) (default ∅ (properties objn) !! HostsV1))
    as [h|raw] eqn:Hh; simplify_eq.
  exists h. split; reflexivity.
Qed.

(** What a successful [DetachHost] did to the properties. *)
Lemma DetachHost_effect (objn c' : Core Network) (t : Task) (hostID : string)
    (w w' : World) :
  DetachHost objn (Some t) hostID w = ((None, c'), w') ->
  exists h,
    default (zeroProperty HostsV1) (default ∅ (properties objn) !! HostsV1) = NetworkHostsV1 h
    /\ properties c'
       = Some (<[HostsV1 :=
                   match ByID h !! hostID with
                   | Some hostName =>
                       NetworkHostsV1
                         (mkNetworkHosts (delete hostID (ByID h)) (delete hostName (ByName h)))
                   | None => NetworkHostsV1 h
                   end]>
                 (default ∅ (properties objn))).
Proof.
  unfold DetachHost. destruct (IsNull objn); [intros; simplify_eq|].
  destruct (String.eqb hostID ""); [intros; simplify_eq|].
  intros Ha. apply Alter_success_inv in Ha
    as (c1 & w1 & p & p' & props' & w2 & _ & _ & Hp & Hfn & -> & _).
  rewrite Hp, populated_properties in Hfn. unfold props_Alter in Hfn.
  destruct (default (zeroProperty HostsV1) (default ∅ (properties objn) !! HostsV1))
    as [h|raw] eqn:Hh; [|simplify_eq].
  exists h. split; [reflexivity|].
  destruct (ByID h !! hostID); simplify_eq; reflexivity.
Qed.

(** X15: after a successful [AttachHost], [hosts.v1] maps the host's id
    to its name and its name to its id, every other registration is as
    it was (a host of the same id or name is replaced), the other
    properties are untouched, and so [hosts.v1] is not empty. *)
Theorem AttachHost_registers (objn c' : Core Network) (t : Task) (host : Core HostT)
    (w w' : World) :
  AttachHost objn (Some t) (Some host) w = ((None, c'), w') ->
  exists props' h h',
    properties c' = Some props'
    /\ default (zeroProperty HostsV1) (default ∅ (properties objn) !! HostsV1) = NetworkHostsV1 h
    /\ props' !! HostsV1 = Some (NetworkHostsV1 h')
    /\ ByID h' !! SafeGetID host = Some (SafeGetName host)
    /\ ByName h' !! SafeGetName host = Some (SafeGetID host)
    /\ (forall i, i <> SafeGetID host -> ByID h' !! i = ByID h !! i)
    /\ (forall n, n <> SafeGetName host -> ByName h' !! n = ByName h !! n)
    /\ (forall k, k <> HostsV1 -> props' !! k = default ∅ (properties objn) !! k)
    /\ ByName h' <> ∅.
Proof.
  intros Ha. apply AttachHost_effect in Ha as (h & Hh & Hp).
  eexists _, h, _. split; [exact Hp|]. split; [exact Hh|].
  split; [apply lookup_insert_eq|]. simpl.
  split; [apply lookup_insert_eq|]. split; [apply lookup_insert_eq|].
  split; [intros i Hi; apply lookup_insert_ne; congruence|].
  split; [intros n Hn; apply lookup_insert_ne; congruence|].
  split; [intros k Hk; apply lookup_insert_ne; congruence|].
  apply insert_non_empty.
Qed.

(** X16: after a successful [DetachHost] of an id, [hosts.v1] has no
    host of that id; when the id was registered, its name is gone too
    and the rest is as it was; when it was not, the two maps are exactly
    as they were (detaching an unknown host is no failure). *)
Theorem DetachHost_unregisters (objn c' : Core Network) (t : Task) (hostID : string)
    (w w' : World) :
  DetachHost objn (Some t) hostID w = ((None, c'), w') ->
  exists props' h h',
    properties c' = Some props'
    /\ default (zeroProperty HostsV1) (default ∅ (properties objn) !! HostsV1) = NetworkHostsV1 h
    /\ props' !! HostsV1 = Some (NetworkHostsV1 h')
    /\ ByID h' !! hostID = None
    /\ (forall hostName, ByID h !! hostID = Some hostName ->
          ByID h' = delete hostID (ByID h) /\ ByName h' = delete hostName (ByName h))
    /\ (ByID h !! hostID = None -> h' = h)
    /\ hostID <> "".
Proof.
  intros Ha.
  assert (Hne : hostID <> "").
  { intros ->. unfold DetachHost in Ha. destruct (IsNull objn); simplify_eq. }
  apply DetachHost_effect in Ha as (h & Hh & Hp).
  destruct (ByID h !! hostID) as [hostName|] eqn:Hid.
  - eexists _, h, _. split; [exact Hp|]. split; [exact Hh|].
    split; [apply lookup_insert_eq|]. simpl.
    split; [apply lookup_delete_eq|].
    split; [intros n Hn; rewrite Hid in Hn; injection Hn as <-; split; reflexivity|].
    split; [intros Hx; rewrite Hid in Hx; discriminate Hx | exact Hne].
  - eexists _, h, h. split; [exact Hp|]. split; [exact Hh|].
    split; [apply lookup_insert_eq|].
    split; [exact Hid|].
    split; [intros n Hn; rewrite Hid in Hn; discriminate Hn|].
    split; [reflexivity | exact Hne].
Qed.

(** X17: attaching a host whose id and name are not registered and then
    detaching it by its id gives back [hosts.v1] as it was. *)
Theorem Attach_then_Detach (objn c1 c2 : Core Network) (t : Task) (host : Core HostT)
    (w w1 w2 : World) (h : NetworkHosts) :
  default (zeroProperty HostsV1) (default ∅ (properties objn) !! HostsV1) = NetworkHostsV1 h ->
  ByID h !! SafeGetID host = None ->
  ByName h !! SafeGetName host = None ->
  AttachHost objn (Some t) (Some host) w = ((None, c1), w1) ->
  DetachHost c1 (Some t) (SafeGetID host) w1 = ((None, c2), w2) ->
  exists props2, properties c2 = Some props2
                 /\ props2 !! HostsV1 = Some (NetworkHostsV1 h).
Proof.
  intros Hh Hi Hn Ha Hd.
  apply AttachHost_effect in Ha as (h0 & Hh0 & Hp1).
  rewrite Hh in Hh0. injection Hh0 as <-.
  apply DetachHost_effect in Hd as (h1 & Hh1 & Hp2).
  rewrite Hp1 in Hh1, Hp2. simpl in Hh1, Hp2.
  rewrite lookup_insert_eq in Hh1. simpl in Hh1. injection Hh1 as <-.
  simpl in Hp2. rewrite lookup_insert_eq in Hp2.
  eexists. split; [exact Hp2|]. rewrite lookup_insert_eq. f_equal. f_equal.
  destruct h as [byID byName]. simpl in *. f_equal.
  - apply map_eq. intros i. destruct (decide (SafeGetID host = i)) as [<-|Hne].
    + rewrite lookup_delete_eq. symmetry. exact Hi.
    + rewrite lookup_delete_ne, lookup_insert_ne by exact Hne. reflexivity.
  - apply map_eq. intros n. destruct (decide (SafeGetName host = n)) as [<-|Hne].
    + rewrite lookup_delete_eq. symmetry. exact Hn.
    + rewrite lookup_delete_ne, lookup_insert_ne by exact Hne. reflexivity.
Qed.






(** X20: with a storage that does not fail, a [network.Delete] that
    succeeds leaves the instance without its payload and the storage
    without the entries [byID/<id>] and [byName/<name>] of the network
    (the id and the name the instance had cached). *)
Theorem network_Delete_removes_metadata (objn c' : Core Network) (t : Task) (w w' : World) :
  (forall tr ev, storageFault tr ev = None) ->
  network_Delete objn (Some t) w = ((None, c'), w') ->
  shielded c' = None
  /\ objects w' !! (path (folder_ objn), byIDFolderName, SafeGetID objn) = None
  /\ objects w' !! (path (folder_ objn), byNameFolderName, SafeGetName objn) = None.
Proof.
  intros Hq Hd. unfold network_Delete in Hd.
  destruct (IsNull objn) eqn:Hn; [discriminate Hd|].
  pose proof (Alter_frame objn (Some t) (Some (Delete_callback t)) w) as (Hk & Hf & Hnm & Hid).
  destruct (Alter objn (Some t) (Some (Delete_callback t)) w) as [[x objn1] w1].
  simpl in Hk, Hf, Hnm, Hid.
  destruct x as [x|]; [discriminate Hd|].
  assert (Hn1 : IsNull objn1 = false) by (unfold IsNull in *; rewrite Hk; exact Hn).
  assert (Hv : forall tr ev e, storageFault tr ev = Some e -> isNotFoundValue e = false)
    by (intros tr ev e He; rewrite Hq in He; discriminate He).
  destruct (Delete_success_removes objn1 c' (Some t) w1 w' Hv Hd) as (_ & _ & Ho).
  apply Delete_success in Hd as (-> & _).
  assert (H1 : objects w' !! (path (folder_ objn1), byIDFolderName, SafeGetID objn1) = None).
  { rewrite Ho. rewrite lookup_delete_ne
      by (intros Hx; symmetry in Hx; exact (index_keys_differ objn1 Hx)).
    apply lookup_delete_eq. }
  assert (H2 : objects w' !! (path (folder_ objn1), byNameFolderName, SafeGetName objn1)
               = None) by (rewrite Ho; apply lookup_delete_eq).
  assert (HI : SafeGetID objn1 = SafeGetID objn)
    by (unfold SafeGetID, IsNull in *; rewrite Hk, Hid; reflexivity).
  assert (HN : SafeGetName objn1 = SafeGetName objn)
    by (unfold SafeGetName, IsNull in *; rewrite Hk, Hnm; reflexivity).
  rewrite Hf, HI in H1. rewrite Hf, HN in H2.
  split; [reflexivity|]. split; assumption.
Qed.

(** [Inspect] with a callback that assigns captured variables, once the
    reload has succeeded: the callback runs on the reloaded payload. *)
Lemma Inspect_capturing_after_reload {T : Type} `{Payload T} {R : Type}
    (c c1 : Core T) (t : Task) (cb : CapturingCallback T R) (r0 : R)
    (w w1 : World) (p : T) :
  Reload (populateProperties c).2 (Some t) w = ((None, c1), w1) ->
  shielded c1 = Some p ->
  Inspect_capturing c (Some t) (Some cb) r0 w
  = (((cb p (default ∅ (properties c1)) r0 w1).1.1.1,
      (cb p (default ∅ (properties c1)) r0 w1).1.1.2),
     set_properties c1 (Some (cb p (default ∅ (properties c1)) r0 w1).1.2),
     (cb p (default ∅ (properties c1)) r0 w1).2).
Proof.
  intros Hr Hs.
  destruct (populateProperties_preserves c) as (Hnull & _).
  pose proof (Reload_success _ _ _ _ _ Hr) as (q & q' & _ & _ & _ & Hn & _).
  unfold Inspect_capturing. rewrite <- Hnull, Hn.
  rewrite (surjective_pairing (populateProperties c)).
  rewrite populateProperties_fst.
  rewrite Hr. unfold Shielded_Inspect. rewrite Hs.
  destruct (cb p (default ∅ (properties c1)) r0 w1) as [[[e r] props'] w2]. reflexivity.
Qed.

(** The same when the reload fails: the callback is not run and the
    captured variables keep their initial value. *)
Lemma Inspect_capturing_reload_fails {T : Type} `{Payload T} {R : Type}
    (c c1 : Core T) (t : Task) (cb : CapturingCallback T R) (r0 : R)
    (w w1 : World) (e : error) :
  IsNull c = false ->
  Reload (populateProperties c).2 (Some t) w = ((Some e, c1), w1) ->
  Inspect_capturing c (Some t) (Some cb) r0 w = (((Some e, r0), c1), w1).
Proof.
  intros Hn Hr. unfold Inspect_capturing. rewrite Hn.
  rewrite (surjective_pairing (populateProperties c)).
  rewrite populateProperties_fst, Hr. reflexivity.
Qed.

Lemma reloaded_null {T : Type} `{Payload T} (c c1 : Core T) (t : Task) (w w1 : World) :
  Reload (populateProperties c).2 (Some t) w = ((None, c1), w1) -> IsNull c = false.
Proof.
  intros Hr. destruct (populateProperties_preserves c) as (Hnull & _).
  pose proof (Reload_success _ _ _ _ _ Hr) as (q & q' & _ & _ & _ & Hn & _).
  rewrite <- Hnull. exact Hn.
Qed.

(** X21: [GetGateway] reads the gateway id (primary or secondary) from
    the reloaded payload of the network. When that id is empty it
    returns [NotFound] naming the gateway asked for, and no host is
    loaded; otherwise it loads the host of that id and returns what
    [LoadHost] gave. *)
Theorem GetGateway_spec (objn c1 : Core Network) (t : Task) (primary : bool)
    (w w1 : World) (an : Network) :
  Reload (populateProperties objn).2 (Some t) w = ((None, c1), w1) ->
  shielded c1 = Some an ->
  let gatewayID := if primary then GatewayID an else SecondaryGatewayID an in
  (gatewayID = "" ->
     (GetGateway objn (Some t) primary w).1.1
     = (None, Some (NotFoundError
                      ("no " +:+ (if primary then "primary" else "secondary")
                         +:+ " gateway ID found in network properties")))
     /\ (GetGateway objn (Some t) primary w).2 = w1)
  /\ (gatewayID <> "" ->
     (GetGateway objn (Some t) primary w).1.1 = LoadHost_result (trace w1) gatewayID
     /\ (GetGateway objn (Some t) primary w).2 = emit (HostLoad gatewayID) w1).
Proof.
  intros Hr Hs gatewayID.
  pose proof (reloaded_null _ _ _ _ _ Hr) as Hn.
  unfold GetGateway. rewrite Hn.
  rewrite (Inspect_capturing_after_reload objn c1 t _ "" w w1 an Hr Hs). simpl.
  fold gatewayID. split; intros Hg.
  - rewrite Hg. simpl. destruct primary; split; reflexivity.
  - apply String.eqb_neq in Hg. rewrite Hg. split; reflexivity.
Qed.

(** The route queries, for either address family of the model: the IP of
    the VIP wins when the network has a VIP with that IP; else the
    primary gateway is loaded and its IP is returned, or the error of
    [LoadHost] with an empty IP. *)
Lemma routeCallback_spec (objn c1 : Core Network) (t : Task)
    (vipIP : VirtualIP -> string) (hostIP : option (Core HostT) -> string)
    (w w1 : World) (an : Network) :
  Reload (populateProperties objn).2 (Some t) w = ((None, c1), w1) ->
  shielded c1 = Some an ->
  let r := Inspect_capturing objn (Some t) (Some (routeCallback (Some t) vipIP hostIP)) "" w in
  (forall vip, VIP an = Some vip -> vipIP vip <> "" ->
     r.1.1 = (None, vipIP vip) /\ r.2 = w1)
  /\ ((VIP an = None \/ exists vip, VIP an = Some vip /\ vipIP vip = "") ->
      r.2 = emit (HostLoad (GatewayID an)) w1
      /\ r.1.1 = match LoadHost_result (trace w1) (GatewayID an) with
                 | (_, Some e) => (Some e, "")
                 | (objpgw, None) => (None, hostIP objpgw)
                 end).
Proof.
  intros Hr Hs r. subst r.
  rewrite (Inspect_capturing_after_reload objn c1 t _ "" w w1 an Hr Hs).
  unfold routeCallback, LoadHost. split.
  - intros vip Hv Hip. rewrite Hv. apply String.eqb_neq in Hip. rewrite Hip. simpl.
    split; reflexivity.
  - intros [Hv | (vip & Hv & Hip)]; rewrite Hv; [|rewrite Hip; simpl];
      destruct (LoadHost_result (trace w1) (GatewayID an)) as [objpgw [e|]];
      split; reflexivity.
Qed.

(** X22: [GetDefaultRouteIP] returns the private IP of the VIP when the
    network has a VIP whose private IP is not empty, and then loads no
    host. Otherwise (no VIP, or a VIP without private IP) it loads the
    primary gateway and returns its private IP, or an empty IP with the
    error of [LoadHost]. *)
Theorem GetDefaultRouteIP_spec (objn c1 : Core Network) (t : Task)
    (w w1 : World) (an : Network) :
  Reload (populateProperties objn).2 (Some t) w = ((None, c1), w1) ->
  shielded c1 = Some an ->
  (forall vip, VIP an = Some vip -> vip_PrivateIP vip <> "" ->
     (GetDefaultRouteIP objn (Some t) w).1.1 = (vip_PrivateIP vip, None)
     /\ (GetDefaultRouteIP objn (Some t) w).2 = w1)
  /\ ((VIP an = None \/ exists vip, VIP an = Some vip /\ vip_PrivateIP vip = "") ->
      (GetDefaultRouteIP objn (Some t) w).2 = emit (HostLoad (GatewayID an)) w1
      /\ (GetDefaultRouteIP objn (Some t) w).1.1
         = match LoadHost_result (trace w1) (GatewayID an) with
           | (_, Some e) => ("", Some e)
           | (objpgw, None) => (host_SafeGetPrivateIP objpgw, None)
           end).
Proof.
  intros Hr Hs.
  pose proof (reloaded_null _ _ _ _ _ Hr) as Hn.
  destruct (routeCallback_spec objn c1 t vip_PrivateIP host_SafeGetPrivateIP w w1 an Hr Hs)
    as [H1 H2].
  unfold GetDefaultRouteIP. rewrite Hn.
  destruct (Inspect_capturing _ _ _ _ _) as [[[xerr ip] objn1] w2]. simpl in *.
  split.
  - intros vip Hv Hip. destruct (H1 vip Hv Hip) as [E1 E2].
    injection E1 as -> ->. split; [reflexivity | exact E2].
  - intros Hv. destruct (H2 Hv) as [E2 E1]. split; [exact E2|].
    destruct (LoadHost_result (trace w1) (GatewayID an)) as [objpgw [e|]];
      injection E1 as -> ->; reflexivity.
Qed.

(** X23: [GetEndpointIP] does the same with public IPs: the public IP of
    the VIP when there is a VIP with one, else the public IP of the
    primary gateway, which is loaded. A VIP that has only a private IP
    does not keep the gateway from being loaded. *)
Theorem GetEndpointIP_spec (objn c1 : Core Network) (t : Task)
    (w w1 : World) (an : Network) :
  Reload (populateProperties objn).2 (Some t) w = ((None, c1), w1) ->
  shielded c1 = Some an ->
  (forall vip, VIP an = Some vip -> vip_PublicIP vip <> "" ->
     (GetEndpointIP objn (Some t) w).1.1 = (vip_PublicIP vip, None)
     /\ (GetEndpointIP objn (Some t) w).2 = w1)
  /\ ((VIP an = None \/ exists vip, VIP an = Some vip /\ vip_PublicIP vip = "") ->
      (GetEndpointIP objn (Some t) w).2 = emit (HostLoad (GatewayID an)) w1
      /\ (GetEndpointIP objn (Some t) w).1.1
         = match LoadHost_result (trace w1) (GatewayID an) with
           | (_, Some e) => ("", Some e)
           | (objpgw, None) => (host_SafeGetPublicIP objpgw, None)
           end).
Proof.
  intros Hr Hs.
  pose proof (reloaded_null _ _ _ _ _ Hr) as Hn.
  destruct (routeCallback_spec objn c1 t vip_PublicIP host_SafeGetPublicIP w w1 an Hr Hs)
    as [H1 H2].
  unfold GetEndpointIP. rewrite Hn.
  destruct (Inspect_capturing _ _ _ _ _) as [[[xerr ip] objn1] w2]. simpl in *.
  split.
  - intros vip Hv Hip. destruct (H1 vip Hv Hip) as [E1 E2].
    injection E1 as -> ->. split; [reflexivity | exact E2].
  - intros Hv. destruct (H2 Hv) as [E2 E1]. split; [exact E2|].
    destruct (LoadHost_result (trace w1) (GatewayID an)) as [objpgw [e|]];
      injection E1 as -> ->; reflexivity.
Qed.

(** X24: on a network whose metadata reloads, [HasVirtualIP] and
    [GetVirtualIP] agree: [HasVirtualIP] is true exactly when
    [GetVirtualIP] returns the VIP of the payload without error, and
    when the payload has no VIP [GetVirtualIP] returns [NotFound] naming
    the network. Neither does more than the reload's read. *)
Theorem VirtualIP_queries_agree (objn c1 : Core Network) (t : Task)
    (w w1 : World) (an : Network) :
  Reload (populateProperties objn).2 (Some t) w = ((None, c1), w1) ->
  shielded c1 = Some an ->
  (HasVirtualIP objn (Some t) w).1.1 = match VIP an with Some _ => true | None => false end
  /\ (GetVirtualIP objn (Some t) w).1.1
     = match VIP an with
       | Some vip => (Some vip, None)
       | None => (None, Some (NotFoundError
                                ("failed to find Virtual IP binded to gateways for network '"
                                   +:+ SafeGetName objn +:+ "'")))
       end
  /\ (HasVirtualIP objn (Some t) w).2 = w1
  /\ (GetVirtualIP objn (Some t) w).2 = w1.
Proof.
  intros Hr Hs.
  pose proof (reloaded_null _ _ _ _ _ Hr) as Hn.
  pose proof (Reload_frame (populateProperties objn).2 (Some t) w) as (Hk & _ & Hnm & _).
  rewrite Hr in Hk, Hnm. simpl in Hk, Hnm.
  destruct (populateProperties_preserves objn) as (_ & _ & _ & _ & Hkind & Hname & _).
  unfold HasVirtualIP, GetVirtualIP. rewrite Hn.
  rewrite !(Inspect_capturing_after_reload (R:=bool) objn c1 t _ _ w w1 an Hr Hs).
  rewrite !(Inspect_capturing_after_reload (R:=option VirtualIP) objn c1 t _ _ w w1 an Hr Hs).
  simpl.
  assert (HN : SafeGetName (set_properties c1 (Some (default ∅ (properties c1))))
               = SafeGetName objn).
  { unfold SafeGetName, IsNull. simpl. rewrite Hk, Hnm, Hkind, Hname. reflexivity. }
  destruct (VIP an); rewrite ?HN; repeat split; reflexivity.
Qed.

(** X25: when the metadata of the network cannot be reloaded,
    [HasVirtualIP] answers false and [GetVirtualIP] returns the error of
    the reload wrapped with the message "cannot get network virtual IP". *)
Theorem VirtualIP_queries_reload_failure (objn c1 : Core Network) (t : Task)
    (w w1 : World) (e : error) :
  IsNull objn = false ->
  Reload (populateProperties objn).2 (Some t) w = ((Some e, c1), w1) ->
  (HasVirtualIP objn (Some t) w).1.1 = false
  /\ (GetVirtualIP objn (Some t) w).1.1
     = (None, Some (Wrap (Some e) "cannot get network virtual IP")).
Proof.
  intros Hn Hr. unfold HasVirtualIP, GetVirtualIP. rewrite Hn.
  rewrite !(Inspect_capturing_reload_fails (R:=bool) objn c1 t _ _ w w1 e Hn Hr).
  rewrite !(Inspect_capturing_reload_fails (R:=option VirtualIP) objn c1 t _ _ w w1 e Hn Hr).
  split; reflexivity.
Qed.

(** [Inspect_capturing] is [Inspect] run with the callback the capturing
    one stands for: same error, same instance, same world. *)
Lemma Inspect_capturing_forget {T : Type} `{Payload T} {R : Type}
    (c : Core T) (task : option Task) (cb : CapturingCallback T R) (r0 : R) (w : World) :
  Inspect c task (Some (forgetCaptured cb r0)) w
  = ((Inspect_capturing c task (Some cb) r0 w).1.1.1,
     (Inspect_capturing c task (Some cb) r0 w).1.2,
     (Inspect_capturing c task (Some cb) r0 w).2).
Proof.
  unfold Inspect, Inspect_capturing, forgetCaptured.
  destruct (IsNull c); [reflexivity|].
  destruct task as [t|]; [|reflexivity].
  destruct (populateProperties c) as [[e|] c0]; [reflexivity|].
  destruct (Reload c0 (Some t) w) as [[[e|] c1] w1]; [reflexivity|].
  unfold Shielded_Inspect. destruct (shielded c1) as [p|]; [|reflexivity].
  destruct (cb p (default ∅ (properties c1)) r0 w1) as [[[e r] props'] w2]. reflexivity.
Qed.

(** ** More theorems: the gateways' host names, the SSH copy arguments *)

Lemma list_ascii_of_append (a b : string) :
  list_ascii_of_string (a +:+ b) = (list_ascii_of_string a ++ list_ascii_of_string b)%list.
Proof.
  induction a as [|x a IH]; [reflexivity|].
  rewrite append_cons. simpl. now rewrite IH.
Qed.

Lemma TrimLeft_head (l : list ascii) (c : ascii) (t : list ascii) :
  TrimLeft l c <> c :: t.
Proof.
  induction l as [|a l IH]; simpl; [discriminate|].
  destruct (Ascii.eqb a c) eqn:E; [exact IH|].
  intros [= -> _]. rewrite Ascii.eqb_refl in E. discriminate.
Qed.

Lemma TrimLeft_suffix (l : list ascii) (c : ascii) :
  exists p, l = (p ++ TrimLeft l c)%list.
Proof.
  induction l as [|a l [p IH]]; simpl; [exists []; reflexivity|].
  destruct (Ascii.eqb a c).
  - exists (a :: p). simpl. now rewrite <- IH.
  - exists []. reflexivity.
Qed.

(** [strings.Trim(s, c)] leaves a string that neither starts nor ends
    with [c]. *)
Lemma Trim_clean (s : string) (c : ascii) :
  (forall rest, Trim s c <> String c rest)
  /\ (forall rest, Trim s c <> rest +:+ String c "").
Proof.
  unfold Trim.
  set (l' := TrimLeft (list_ascii_of_string s) c).
  split; intros rest Heq; apply (f_equal list_ascii_of_string) in Heq;
    rewrite list_ascii_of_string_of_list_ascii in Heq.
  - simpl in Heq.
    destruct (TrimLeft_suffix (rev l') c) as [p Hp].
    apply (f_equal (@rev ascii)) in Hp. rewrite rev_involutive, rev_app_distr, Heq in Hp.
    simpl in Hp. exact (TrimLeft_head _ _ _ Hp).
  - rewrite list_ascii_of_append in Heq. simpl in Heq.
    apply (f_equal (@rev ascii)) in Heq. rewrite rev_involutive, rev_app_distr in Heq.
    simpl in Heq. exact (TrimLeft_head _ _ _ Heq).
Qed.

(** X26: in [Create], the host name of each gateway is its resource name
    followed by one and the same suffix: nothing when the requested
    domain is empty or made of dots only, else a dot and the domain
    without its leading and trailing dots. The trimmed domain never
    starts nor ends with a dot, so the host name has no doubled or
    trailing dot from the domain. *)
Theorem Create_gateway_host_names (req : NetworkRequest) (caps : Capabilities)
    (gwname networkName : string) :
  let r := Create_gatewayRequests req caps gwname networkName in
  let d := Trim (req_Domain req) "."%char in
  let suffix := if String.eqb d "" then "" else "." +:+ d in
  HostName r.1 = ResourceName r.1 +:+ suffix
  /\ (forall s, r.2 = Some s -> HostName s = ResourceName s +:+ suffix)
  /\ (forall rest, d <> String "."%char rest)
  /\ (forall rest, d <> rest +:+ ".").
Proof.
  intros r d suffix. subst r. unfold Create_gatewayRequests.
  destruct (Create_gatewayNames _ _ _) as [pn sn]. fold d.
  assert (Hdom : (if negb (String.eqb d "") then "." +:+ d else d) = suffix).
  { subst suffix. destruct (String.eqb d "") eqn:E; simpl; [|reflexivity].
    now apply String.eqb_eq in E. }
  rewrite Hdom.
  split; [destruct (Create_failover req caps); reflexivity|].
  split.
  - intros s Hs. destruct (Create_failover req caps); simpl in Hs; [|discriminate].
    injection Hs as <-. simpl.
    destruct (String.eqb (req_Domain req) "") eqn:E; simpl; [|reflexivity].
    apply String.eqb_eq in E. subst suffix d. rewrite E.
    change (Trim "" ".") with "". simpl. now rewrite append_nil_r.
  - subst d. exact (Trim_clean (req_Domain req) "."%char).
Qed.

Lemma Split_length (s : string) (sep : ascii) :
  length (strings_Split s sep) = S (count_occ ascii_dec (list_ascii_of_string s) sep).
Proof.
  induction s as [|a s IH]; [reflexivity|]. simpl.
  destruct (Ascii.eqb a sep) eqn:E.
  - apply Ascii.eqb_eq in E. subst a. simpl. rewrite IH.
    destruct (ascii_dec sep sep); [reflexivity | congruence].
  - destruct (ascii_dec a sep) as [->|_]; [rewrite Ascii.eqb_refl in E; discriminate|].
    rewrite <- IH. destruct (strings_Split s sep); [discriminate IH | reflexivity].
Qed.

Lemma Split_none (s : string) (sep : ascii) :
  count_occ ascii_dec (list_ascii_of_string s) sep = 0%nat -> strings_Split s sep = [s].
Proof.
  induction s as [|a s IH]; [reflexivity|]. simpl.
  destruct (ascii_dec a sep) as [->|Hne]; [discriminate|].
  intros H0. rewrite (IH H0).
  destruct (Ascii.eqb a sep) eqn:E; [apply Ascii.eqb_eq in E; contradiction | reflexivity].
Qed.

Lemma Split_one (a b : string) (sep : ascii) :
  count_occ ascii_dec (list_ascii_of_string a) sep = 0%nat ->
  strings_Split (a +:+ String sep b) sep = a :: strings_Split b sep.
Proof.
  induction a as [|x a IH].
  - intros _. rewrite append_nil_l. simpl. now rewrite Ascii.eqb_refl.
  - simpl. destruct (ascii_dec x sep) as [->|Hne]; [discriminate|].
    intros H0. rewrite (IH H0).
    destruct (Ascii.eqb x sep) eqn:E; [apply Ascii.eqb_eq in E; contradiction | reflexivity].
Qed.

(** X27: an argument without separator names no host and is its own
    path, as it is (not even trimmed); an argument with two separators
    or more is refused by both functions with "too many parts in path". *)
Theorem extract_by_separators (s : string) :
  (separators s = 0%nat ->
     extracthostName s = ("", None) /\ extractPath s = (s, None))
  /\ ((2 <= separators s)%nat ->
     extracthostName s = ("", Some (GoError "too many parts in path"))
     /\ extractPath s = ("", Some (GoError "too many parts in path"))).
Proof.
  unfold separators, extracthostName, extractPath.
  rewrite Split_length. split; intros Hn.
  - rewrite Hn. simpl. split; reflexivity.
  - destruct (count_occ _ _ _) as [|[|n]]; [lia | lia | split; reflexivity].
Qed.

(** X28: for an argument [a:b] with one separator, the host is [a]
    without the spaces around it and the path is [b] without the spaces
    around it, unless the host is (in any letter case) one of file,
    http, https and ftp: both functions then return the error "no
    protocol expected. Only host name". *)
Theorem extract_host_and_path (a b : string) :
  separators a = 0%nat -> separators b = 0%nat ->
  let s := a +:+ String protocolSeparator b in
  let hostName := strings_TrimSpace a in
  if existsb (String.eqb (strings_ToLower hostName)) ["file"; "http"; "https"; "ftp"]
  then extracthostName s = ("", Some (GoError "no protocol expected. Only host name"))
       /\ extractPath s = ("", Some (GoError "no protocol expected. Only host name"))
  else extracthostName s = (hostName, None)
       /\ extractPath s = (strings_TrimSpace b, None).
Proof.
  intros Ha Hb s hostName. unfold separators in Ha, Hb.
  unfold extractPath, extracthostName. subst s.
  rewrite (Split_one a b _ Ha), (Split_none b _ Hb). simpl.
  fold hostName.
  destruct (String.eqb (strings_ToLower hostName) "file"); [split; reflexivity|].
  destruct (String.eqb (strings_ToLower hostName) "http"); [split; reflexivity|].
  destruct (String.eqb (strings_ToLower hostName) "https"); [split; reflexivity|].
  destruct (String.eqb (strings_ToLower hostName) "ftp"); split; reflexivity.
Qed.

End SafeScale.

(** ** The theorems at work on concrete instances *)

Local Abbreviation NP := (Network_Payload plain_Marshal_Network plain_Unmarshal_Network).
Local Abbreviation world1_read := (emit (FolderRead "networks" "byID" "id-1") world1).

(** [Alter] on [core1] with a callback that refuses: the error comes
    back, and the storage is as it was. *)
Lemma Alter_callback_error_witness :
  Alter plain_CallTrace quiet (H := NP) core1 (Some task1) (Some failingCallback) world1
  = ((Some (GoError "refused"), core1), world1_read)
  /\ objects world1_read = objects world1.
Proof.
  destruct (Alter_callback_error plain_CallTrace quiet (H := NP)
              core1 core1 (Some task1) failingCallback world1 world1_read world1_read
              net1 net1 ∅ (GoError "refused")) as (Ha & _ & Ho & _).
  - vm_compute. reflexivity.
  - reflexivity.
  - reflexivity.
  - split; [exact Ha | exact Ho].
Defined.

(** [Alter] with a callback that succeeds on [core1], and [Carry] of
    [net1] by a fresh instance: both leave the two indices equal. *)
Lemma write_path_indices_agree_witness :
  indices_agree (H := NP) core1
    (Alter plain_CallTrace quiet (H := NP) core1 (Some task1) (Some idleCallback) world1).2
  /\ indices_agree (H := NP) core1
       (Carry plain_CallTrace quiet (H := NP) freshCore (Some task1) (Some net1) emptyWorld).2.
Proof.
  split.
  - apply (proj1 (write_path_indices_agree plain_CallTrace quiet (H := NP))
             core1 core1 (Some task1) (Some idleCallback) world1).
    vm_compute. reflexivity.
  - apply (proj2 (write_path_indices_agree plain_CallTrace quiet (H := NP))
             freshCore core1 (Some task1) (Some net1) emptyWorld).
    vm_compute. reflexivity.
Defined.

(** [Read] on [core1], which carries [net1]. *)
Lemma Read_already_carrying_witness :
  Read plain_CallTrace quiet (H := NP) core1 (Some task1) "id-1" world1
  = ((Some (NotAvailableError "metadata is already carrying a value"), core1), world1).
Proof.
  apply (Read_already_carrying plain_CallTrace quiet (H := NP) core1 (Some task1) "id-1" world1 net1).
  - reflexivity.
  - discriminate.
  - discriminate.
  - reflexivity.
Defined.

(** [core1] after its [Delete]: [Inspect] reports [InvalidInstance]. *)
Lemma Delete_then_operations_witness :
  (Inspect plain_CallTrace quiet (H := NP) (set_shielded core1 None) (Some task1)
     (Some idleCallback) emptyWorld).1.1
  = Some (InvalidInstanceError plain_CallTrace).
Proof.
  destruct (Delete_then_operations plain_CallTrace quiet (H := NP) core1 (set_shielded core1 None)
              (Some task1) world1
              (Delete plain_CallTrace quiet core1 (Some task1) world1).2) as (_ & _ & Hops).
  - vm_compute. reflexivity.
  - exact (proj1 (Hops task1 idleCallback emptyWorld)).
Defined.

(** C6, the claim as stated fails: on an instance whose [Delete]
    succeeded, a second [Delete] (an operation other than [Carry] and
    [Read]) passes its guard, searches the storage and reports what the
    search gave, not [InvalidInstance]. *)
Lemma Delete_twice_not_InvalidInstance :
  let first := Delete plain_CallTrace quiet core1 (Some task1) world1 in
  let second := Delete plain_CallTrace quiet first.1.2 (Some task1) first.2 in
  first.1.1 = None
  /\ shielded first.1.2 = None
  /\ second.1.1 <> Some (InvalidInstanceError plain_CallTrace)
  /\ trace second.2
     = (trace first.2 ++ [FolderSearch "networks" "byID" "id-1"])%list.
Proof.
  vm_compute. repeat split; discriminate.
Defined.

(** C4, the code at a fresh instance: the storage holds the metadata
    under [byID/id-1], and [Read] of ["id-1"] stops with
    [InvalidInstance] (under a stop-retry error) without reading the
    storage and without retrying: the instance must carry nothing for
    [Read] to start, and [readByID] reads through what it carries. *)
Lemma Read_fresh_instance_fails :
  objects world1 !! ("networks", "byID", "id-1") = Some (list_byte_of_string "id-1/n1")
  /\ Read plain_CallTrace quiet (H := NP) freshCore (Some task1) "id-1" world1
     = ((Some (StopRetryError (InvalidInstanceError plain_CallTrace)), freshCore), world1).
Proof.
  split.
  - vm_compute. reflexivity.
  - apply (Read_not_carrying plain_CallTrace quiet (H := NP) freshCore (Some task1) "id-1" world1).
    + reflexivity.
    + discriminate.
    + discriminate.
    + reflexivity.
Defined.

(** C8, the claim as stated fails: with a field set, the text has a line
    break before ["With fields: "]. *)
Lemma Error_as_specified_differs :
  errCore_Error plain_Marshal plain_Sdump errWithField
  = "m" +:+ String "010"%char "With fields: {}"
  /\ Error_as_specified plain_Marshal plain_Sdump errWithField = "mWith fields: {}"
  /\ errCore_Error plain_Marshal plain_Sdump errWithField
     <> Error_as_specified plain_Marshal plain_Sdump errWithField.
Proof.
  vm_compute. repeat split; discriminate.
Defined.

(** C5, the claim as stated fails: with failover in effect the explicit
    gateway name is not used. *)
Lemma explicit_gateway_name_ignored :
  Create_failover haRequest (mkCapabilities true) = true
  /\ (Create_gatewayNames (Create_failover haRequest (mkCapabilities true)) "mygw" "n1").1
     = "gw-n1"
  /\ primaryGatewayName_as_specified "mygw" "n1" = "mygw"
  /\ (Create_gatewayNames (Create_failover haRequest (mkCapabilities true)) "mygw" "n1").1
     <> primaryGatewayName_as_specified "mygw" "n1".
Proof.
  vm_compute. repeat split; discriminate.
Defined.

(** [deleteGateway] of [host1], whose metadata is in the storage, with
    a provider and a storage that do not fail: no failure, and the two
    index entries are gone. *)
Lemma deleteGateway_spec_witness :
  (deleteGateway plain_CallTrace quiet quiet unit (Some task1) host1 worldHost1).1 = None
  /\ objects (deleteGateway plain_CallTrace quiet quiet unit (Some task1) host1 worldHost1).2
       !! ("hosts", "byID", "h1-id") = None
  /\ objects (deleteGateway plain_CallTrace quiet quiet unit (Some task1) host1 worldHost1).2
       !! ("hosts", "byName", "h1") = None.
Proof.
  destruct (deleteGateway_spec plain_CallTrace quiet quiet unit (Some task1) host1 worldHost1)
    as (_ & _ & Hgone & _).
  destruct Hgone as (_ & _ & H1 & H2).
  - intros tr ev e He. discriminate He.
  - vm_compute. reflexivity.
  - split; [vm_compute; reflexivity|]. split; [exact H1 | exact H2].
Defined.

Lemma hosts1_attached : ByName hosts1 <> ∅.
Proof.
  intros Hx. apply (f_equal size) in Hx. vm_compute in Hx. discriminate Hx.
Defined.

(** [Delete] of the network [n1] with host [h1] attached. *)
Lemma network_Delete_refuses_witness :
  (network_Delete plain_CallTrace quiet quiet plain_unknownProperty
     plain_Marshal_Network plain_Unmarshal_Network unit
     (fun _ _ => (None, None)) (fun _ _ => (None, None)) 0 plain_Plural plain_rangeSeed
     core1_with_host (Some task1) world1).1.1
  = Some (NotAvailableError
            "cannot delete network 'n1': 1 host is still attached to it: h1")
  /\ (network_Delete plain_CallTrace quiet quiet plain_unknownProperty
        plain_Marshal_Network plain_Unmarshal_Network unit
        (fun _ _ => (None, None)) (fun _ _ => (None, None)) 0 plain_Plural plain_rangeSeed
        core1_with_host (Some task1) world1).2
     = world1_read.
Proof.
  destruct (network_Delete_refuses plain_CallTrace quiet quiet plain_unknownProperty
              plain_Marshal_Network plain_Unmarshal_Network unit
              (fun _ _ => (None, None)) (fun _ _ => (None, None)) 0 plain_Plural plain_rangeSeed
              core1_with_host core1_with_host task1 world1 world1_read
              {[HostsV1 := NetworkHostsV1 hosts1]} hosts1 net1)
    as (Hd & Hw & _).
  - vm_compute. reflexivity.
  - reflexivity.
  - reflexivity.
  - vm_compute. reflexivity.
  - exact hosts1_attached.
  - split; [exact Hd | exact Hw].
Defined.

(** C1, the claim as stated fails: two hosts that bear the same name
    are attached to [n1] and the second one is detached. [hosts.v1]
    still registers the first host by its id, but no name is left, and
    [Delete] is not refused: it asks the provider to delete the network
    and removes the metadata. *)
Lemma network_Delete_with_host_by_id :
  let attached1 :=
    AttachHost plain_CallTrace quiet plain_Marshal_Network plain_Unmarshal_Network unit
      core1 (Some task1) (Some host1) world1 in
  let attached2 :=
    AttachHost plain_CallTrace quiet plain_Marshal_Network plain_Unmarshal_Network unit
      attached1.1.2 (Some task1) (Some host1b) attached1.2 in
  let detached :=
    DetachHost plain_CallTrace quiet plain_Marshal_Network plain_Unmarshal_Network
      attached2.1.2 (Some task1) "h2-id" attached2.2 in
  let deleted :=
    network_Delete plain_CallTrace quiet quiet plain_unknownProperty
      plain_Marshal_Network plain_Unmarshal_Network unit
      (fun _ _ => (None, None)) (fun _ _ => (None, None)) 0 plain_Plural plain_rangeSeed
      detached.1.2 (Some task1) detached.2 in
  attached1.1.1 = None /\ attached2.1.1 = None /\ detached.1.1 = None
  /\ (properties detached.1.2 ≫= (.!! HostsV1))
     = Some (NetworkHostsV1 (mkNetworkHosts {["h1-id" := "h1"]} ∅))
  /\ deleted.1.1 = None
  /\ SvcDeleteNetwork "id-1" ∈ trace deleted.2
  /\ existsb isProviderCall (trace deleted.2) = true
  /\ objects deleted.2 !! ("networks", "byID", "id-1") = None.
Proof.
  vm_compute. repeat split. apply list_elem_of_In. vm_compute. tauto.
Defined.

(** The specification's scenario "delete with attached hosts": a fresh
    instance carries [net1], host [h1] is attached, and [Delete] is
    refused, with no provider call in the whole run. *)
Example delete_with_attached_host :
  let carried :=
    Carry plain_CallTrace quiet (H := NP) freshCore (Some task1) (Some net1) emptyWorld in
  let attached :=
    AttachHost plain_CallTrace quiet plain_Marshal_Network plain_Unmarshal_Network unit
      carried.1.2 (Some task1) (Some host1) carried.2 in
  let deleted :=
    network_Delete plain_CallTrace quiet quiet plain_unknownProperty
      plain_Marshal_Network plain_Unmarshal_Network unit
      (fun _ _ => (None, None)) (fun _ _ => (None, None)) 0 plain_Plural plain_rangeSeed
      attached.1.2 (Some task1) attached.2 in
  carried.1.1 = None
  /\ attached.1.1 = None
  /\ deleted.1.1
     = Some (NotAvailableError
               "cannot delete network 'n1': 1 host is still attached to it: h1")
  /\ forallb (fun ev => negb (isProviderCall ev)) (trace deleted.2) = true.
Proof.
  vm_compute. repeat split.
Qed.

(** ** The further theorems at work on concrete instances *)

(** A field added to an error that has fields. *)
Lemma WithField_records_witness :
  exists m', Fields (errCore_WithField errWithField "k2" (VInt 2)) = Some m'
             /\ m' !! "k2" = Some (VInt 2)
             /\ m' !! "k" = Some (VInt 1).
Proof.
  destruct (proj1 (WithField_records errWithField "k2" (VInt 2)) _ eq_refl)
    as (m' & H1 & H2 & H3).
  exists m'. split; [exact H1|]. split; [exact H2|].
  rewrite (H3 "k"); [reflexivity | discriminate].
Defined.


(** [NewCore] for the networks, with the kind ["nil"], and without a
    service. *)
Lemma NewCore_result_witness :
  NewCore plain_CallTrace unit (fun _ => None) (T := Network) (Some tt) "network" "networks"
  = (freshCore, None)
  /\ IsNull (NewCore plain_CallTrace unit (fun _ => None) (T := Network)
               (Some tt) "nil" "networks").1 = true
  /\ (NewCore plain_CallTrace unit (fun _ => None) (T := Network)
        None "network" "networks").1 = nullCore.
Proof.
  destruct (NewCore_result plain_CallTrace unit (fun _ => None) (T := Network)
              (Some tt) "network" "networks") as (_ & _ & _ & H4).
  destruct (NewCore_result plain_CallTrace unit (fun _ => None) (T := Network)
              (Some tt) "nil" "networks") as (_ & _ & _ & H4').
  destruct (NewCore_result plain_CallTrace unit (fun _ => None) (T := Network)
              None "network" "networks") as (_ & _ & H3 & _).
  split; [|split].
  - apply H4; [discriminate | discriminate | discriminate | reflexivity].
  - apply H4'; [discriminate | discriminate | discriminate | reflexivity].
  - apply H3. discriminate.
Defined.

(** [Carry] on [core1], which carries [net1]. *)
Lemma Carry_already_carrying_witness :
  Carry plain_CallTrace quiet (H := NP) core1 (Some task1) (Some net2) world1
  = ((Some (NotAvailableError "already carrying a shielded value"), core1), world1).
Proof.
  apply (Carry_already_carrying plain_CallTrace quiet (H := NP) core1 (Some task1) net1 net2
           world1).
  - reflexivity.
  - discriminate.
  - reflexivity.
Defined.

(** [Carry] of [net1] by a fresh instance. *)
Lemma Carry_caches_identity_witness :
  let c' := (Carry plain_CallTrace quiet (H := NP) freshCore (Some task1) (Some net1)
               emptyWorld).1.2 in
  shielded c' = Some net1 /\ SafeGetID c' = "id-1" /\ SafeGetName c' = "n1".
Proof.
  destruct (Carry_caches_identity plain_CallTrace quiet (H := NP) freshCore
              (Carry plain_CallTrace quiet (H := NP) freshCore (Some task1) (Some net1)
                 emptyWorld).1.2
              (Some task1) net1 emptyWorld
              (Carry plain_CallTrace quiet (H := NP) freshCore (Some task1) (Some net1)
                 emptyWorld).2) as (H1 & H2 & H3 & _).
  - vm_compute. reflexivity.
  - split; [exact H1|]. split; [exact H2 | exact H3].
Defined.

(** [Carry] with a storage that refuses every operation: the payload
    stays pinned. *)
Lemma Carry_failure_pins_payload_witness :
  shielded (Carry plain_CallTrace (fun _ _ => Some (GoError "storage down")) (H := NP)
              freshCore (Some task1) (Some net1) emptyWorld).1.2
  = Some net1.
Proof.
  destruct (Carry_failure_pins_payload plain_CallTrace
              (fun _ _ => Some (GoError "storage down")) (H := NP)
              freshCore task1 net1 emptyWorld (GoError "storage down")) as (H1 & _).
  - reflexivity.
  - reflexivity.
  - vm_compute. reflexivity.
  - exact H1.
Defined.

(** [Inspect] on [core1] with a callback that refuses. *)
Lemma Inspect_read_only_witness :
  (Inspect plain_CallTrace quiet (H := NP) core1 (Some task1) (Some failingCallback)
     world1).1.1 = Some (GoError "refused")
  /\ objects (Inspect plain_CallTrace quiet (H := NP) core1 (Some task1)
                (Some failingCallback) world1).2 = objects world1.
Proof.
  destruct (Inspect_read_only plain_CallTrace quiet (H := NP) core1 core1 (Some task1)
              failingCallback world1 world1_read world1_read net1 net1 ∅
              (Some (GoError "refused"))) as (H1 & H2 & _ & _ & H5 & _).
  - vm_compute. reflexivity.
  - reflexivity.
  - reflexivity.
  - split; [exact H1|]. rewrite H2. exact H5.
Defined.

(** [Reload] of [core1] over an empty storage gives the folder's
    [NotFound]; with a storage that reports the struct type it gives
    the message of the vanished metadata. *)
Lemma Reload_read_failure_witness :
  (exists e, Reload plain_CallTrace quiet (H := NP) core1 (Some task1) emptyWorld
             = ((Some e, core1), emit (FolderRead "networks" "byID" "id-1") emptyWorld)
             /\ isNotFound e = true)
  /\ Reload plain_CallTrace reportsNotFoundValue (H := NP) core1 (Some task1) emptyWorld
     = ((Some (NotFoundError "the metadata of network '{n1}' vanished"), core1),
        emit (FolderRead "networks" "byID" "id-1") emptyWorld).
Proof.
  split.
  - destruct (Reload_read_failure plain_CallTrace quiet (H := NP) core1 task1 net1 emptyWorld)
      as (H1 & _).
    + reflexivity.
    + reflexivity.
    + reflexivity.
    + destruct H1 as (e & _ & Hnf & Hr); [reflexivity | reflexivity |].
      exists e. split; [exact Hr | exact Hnf].
  - destruct (Reload_read_failure plain_CallTrace reportsNotFoundValue (H := NP) core1 task1
                net1 emptyWorld) as (_ & _ & H3 & _).
    + reflexivity.
    + reflexivity.
    + reflexivity.
    + exact (H3 _ eq_refl eq_refl).
Defined.

(** [Delete] of [core1] with both entries in the storage, and over a
    storage that only has the [byName] entry left. *)
Lemma Delete_needs_both_indices_witness :
  let w := mkWorld {[("networks", "byName", "n1") := list_byte_of_string "id-1/n1"]} [] 0 in
  (Delete plain_CallTrace quiet core1 (Some task1) world1).1 = (None, set_shielded core1 None)
  /\ objects (Delete plain_CallTrace quiet core1 (Some task1) world1).2
       !! ("networks", "byName", "n1") = None
  /\ (exists e, (Delete plain_CallTrace quiet core1 (Some task1) w).1 = (Some e, core1)
                /\ isNotFound e = true
                /\ objects (Delete plain_CallTrace quiet core1 (Some task1) w).2 = objects w).
Proof.
  intros w.
  destruct (Delete_needs_both_indices plain_CallTrace quiet core1 task1 world1)
    as (H1 & _); [reflexivity | reflexivity |].
  destruct (Delete_needs_both_indices plain_CallTrace quiet core1 task1 w)
    as (_ & H2 & _); [reflexivity | reflexivity |].
  destruct H1 as (Hr & _ & Hn); [vm_compute; eauto | vm_compute; eauto |].
  split; [exact Hr|]. split; [exact Hn|].
  apply H2. left. reflexivity.
Defined.

(** [Delete] of [core1] with a storage that refuses every operation. *)
Lemma Delete_failure_keeps_instance_witness :
  (Delete plain_CallTrace (fun _ _ => Some (GoError "storage down")) core1 (Some task1)
     world1).1.2 = core1.
Proof.
  apply (Delete_failure_keeps_instance plain_CallTrace
           (fun _ _ => Some (GoError "storage down")) core1 _ (Some task1) world1
           (Delete plain_CallTrace (fun _ _ => Some (GoError "storage down")) core1
              (Some task1) world1).2
           (GoError "storage down")).
  vm_compute. reflexivity.
Defined.

(** [readByReference] on [core1]: the reference ["id-1"] is found as an
    id; the reference ["n1"], a name, is not found although
    [byName/n1] is there. *)
Lemma readByReference_by_id_witness :
  readByReference plain_CallTrace quiet (H := NP) core1 (Some task1) "id-1" world1
  = ((None, core1), world1_read)
  /\ objects world1 !! ("networks", "byName", "n1") <> None
  /\ exists e,
       readByReference plain_CallTrace quiet (H := NP) core1 (Some task1) "n1" world1
       = ((Some e, core1), emit (FolderRead "networks" "byID" "n1") world1)
       /\ isNotFound e = true.
Proof.
  split; [|split].
  - destruct (readByReference_by_id plain_CallTrace quiet (H := NP) core1
                (Some task1) "id-1" net1 world1) as (H1 & _).
    + reflexivity.
    + reflexivity.
    + apply (H1 (list_byte_of_string "id-1/n1") net1); vm_compute; reflexivity.
  - vm_compute. discriminate.
  - destruct (readByReference_by_id plain_CallTrace quiet (H := NP) core1
                (Some task1) "n1" net1 world1) as (_ & _ & H3 & _).
    + reflexivity.
    + reflexivity.
    + apply H3; vm_compute; reflexivity.
Defined.

Local Abbreviation attach1 :=
  (AttachHost plain_CallTrace quiet plain_Marshal_Network plain_Unmarshal_Network unit
     core1 (Some task1) (Some host1) world1).

(** Host [h1] attached to the network [n1]. *)
Lemma AttachHost_registers_witness :
  exists props' h',
    properties attach1.1.2 = Some props'
    /\ props' !! HostsV1 = Some (NetworkHostsV1 h')
    /\ ByID h' !! "h1-id" = Some "h1"
    /\ ByName h' !! "h1" = Some "h1-id".
Proof.
  destruct (AttachHost_registers plain_CallTrace quiet plain_Marshal_Network
              plain_Unmarshal_Network unit core1 attach1.1.2 task1 host1 world1 attach1.2)
    as (props' & h & h' & H1 & _ & H3 & H4 & H5 & _).
  - vm_compute. reflexivity.
  - exists props', h'. split; [exact H1|]. split; [exact H3|]. split; [exact H4 | exact H5].
Defined.

Local Abbreviation detach1 :=
  (DetachHost plain_CallTrace quiet plain_Marshal_Network plain_Unmarshal_Network
     core1_with_host (Some task1) "h1-id" world1).

(** Host [h1] detached from the network [n1]. *)
Lemma DetachHost_unregisters_witness :
  exists props' h',
    properties detach1.1.2 = Some props'
    /\ props' !! HostsV1 = Some (NetworkHostsV1 h')
    /\ ByID h' !! "h1-id" = None.
Proof.
  destruct (DetachHost_unregisters plain_CallTrace quiet plain_Marshal_Network
              plain_Unmarshal_Network core1_with_host detach1.1.2 task1 "h1-id" world1
              detach1.2)
    as (props' & h & h' & H1 & _ & H3 & H4 & _).
  - vm_compute. reflexivity.
  - exists props', h'. split; [exact H1|]. split; [exact H3 | exact H4].
Defined.

Local Abbreviation detach_attach1 :=
  (DetachHost plain_CallTrace quiet plain_Marshal_Network plain_Unmarshal_Network
     attach1.1.2 (Some task1) "h1-id" attach1.2).

(** Host [h1] attached to the network [n1], then detached. *)
Lemma Attach_then_Detach_witness :
  exists props2, properties detach_attach1.1.2 = Some props2
                 /\ props2 !! HostsV1 = Some (NetworkHostsV1 noHosts).
Proof.
  apply (Attach_then_Detach plain_CallTrace quiet plain_Marshal_Network
           plain_Unmarshal_Network unit core1 attach1.1.2 detach_attach1.1.2 task1 host1
           world1 attach1.2 detach_attach1.2 noHosts).
  - reflexivity.
  - reflexivity.
  - reflexivity.
  - vm_compute. reflexivity.
  - vm_compute. reflexivity.
Defined.



Local Abbreviation delete1 :=
  (network_Delete plain_CallTrace quiet quiet plain_unknownProperty
     plain_Marshal_Network plain_Unmarshal_Network unit
     (fun _ _ => (None, None)) (fun _ _ => (None, None)) 0 plain_Plural plain_rangeSeed
     core1_no_host (Some task1) world1).

(** [Delete] of the network [n1] with a provider that accepts. *)
Lemma network_Delete_removes_metadata_witness :
  delete1.1.1 = None
  /\ shielded delete1.1.2 = None
  /\ objects delete1.2 !! ("networks", "byID", "id-1") = None
  /\ objects delete1.2 !! ("networks", "byName", "n1") = None.
Proof.
  split; [vm_compute; reflexivity|].
  apply (network_Delete_removes_metadata plain_CallTrace quiet quiet plain_unknownProperty
           plain_Marshal_Network plain_Unmarshal_Network unit
           (fun _ _ => (None, None)) (fun _ _ => (None, None)) 0 plain_Plural plain_rangeSeed
           core1_no_host delete1.1.2 task1 world1 delete1.2).
  - reflexivity.
  - vm_compute. reflexivity.
Defined.

(** The gateways of the network [net2]: the primary one is loaded, there
    is no secondary one. *)
Lemma GetGateway_spec_witness :
  (GetGateway plain_CallTrace quiet plain_Marshal_Network plain_Unmarshal_Network unit
     loadsHost1 core2 (Some task1) true world1).1.1 = (Some host1, None)
  /\ (GetGateway plain_CallTrace quiet plain_Marshal_Network plain_Unmarshal_Network unit
        loadsHost1 core2 (Some task1) false world1).1.1
     = (None, Some (NotFoundError "no secondary gateway ID found in network properties")).
Proof.
  split.
  - destruct (GetGateway_spec plain_CallTrace quiet plain_Marshal_Network
                plain_Unmarshal_Network unit loadsHost1 core2 core2 task1 true
                world1 world1_read net2) as (_ & H2).
    + vm_compute. reflexivity.
    + reflexivity.
    + exact (proj1 (H2 ltac:(discriminate))).
  - destruct (GetGateway_spec plain_CallTrace quiet plain_Marshal_Network
                plain_Unmarshal_Network unit loadsHost1 core2 core2 task1 false
                world1 world1_read net2) as (H1 & _).
    + vm_compute. reflexivity.
    + reflexivity.
    + exact (proj1 (H1 eq_refl)).
Defined.

(** The default route of [net2] is the private IP of its VIP, and no
    host is loaded. *)
Lemma GetDefaultRouteIP_spec_witness :
  (GetDefaultRouteIP plain_CallTrace quiet plain_Marshal_Network plain_Unmarshal_Network
     unit loadsHost1 plain_PrivateIP core2 (Some task1) world1).1.1
  = ("192.168.0.10", None)
  /\ (GetDefaultRouteIP plain_CallTrace quiet plain_Marshal_Network plain_Unmarshal_Network
        unit loadsHost1 plain_PrivateIP core2 (Some task1) world1).2
     = world1_read.
Proof.
  destruct (GetDefaultRouteIP_spec plain_CallTrace quiet plain_Marshal_Network
              plain_Unmarshal_Network unit loadsHost1 plain_PrivateIP core2 core2 task1
              world1 world1_read net2) as (H1 & _).
  - vm_compute. reflexivity.
  - reflexivity.
  - apply (H1 vip1); [reflexivity | discriminate].
Defined.

(** The endpoint of [net2], whose VIP has no public IP, is the public IP
    of its primary gateway. *)
Lemma GetEndpointIP_spec_witness :
  (GetEndpointIP plain_CallTrace quiet plain_Marshal_Network plain_Unmarshal_Network
     unit loadsHost1 plain_PublicIP core2 (Some task1) world1).1.1
  = ("203.0.113.1", None)
  /\ (GetEndpointIP plain_CallTrace quiet plain_Marshal_Network plain_Unmarshal_Network
        unit loadsHost1 plain_PublicIP core2 (Some task1) world1).2
     = emit (HostLoad "gw-id") world1_read.
Proof.
  destruct (GetEndpointIP_spec plain_CallTrace quiet plain_Marshal_Network
              plain_Unmarshal_Network unit loadsHost1 plain_PublicIP core2 core2 task1
              world1 world1_read net2) as (_ & H2).
  - vm_compute. reflexivity.
  - reflexivity.
  - destruct H2 as (Hw & Hr).
    + right. exists vip1. split; reflexivity.
    + split; [exact Hr | exact Hw].
Defined.

(** [net2] has a VIP, [net1] has none. *)
Lemma VirtualIP_queries_agree_witness :
  (HasVirtualIP plain_CallTrace quiet plain_Marshal_Network plain_Unmarshal_Network
     core2 (Some task1) world1).1.1 = true
  /\ (GetVirtualIP plain_CallTrace quiet plain_Marshal_Network plain_Unmarshal_Network
        core2 (Some task1) world1).1.1 = (Some vip1, None)
  /\ (GetVirtualIP plain_CallTrace quiet plain_Marshal_Network plain_Unmarshal_Network
        core1 (Some task1) world1).1.1
     = (None, Some (NotFoundError
                      "failed to find Virtual IP binded to gateways for network 'n1'")).
Proof.
  destruct (VirtualIP_queries_agree plain_CallTrace quiet plain_Marshal_Network
              plain_Unmarshal_Network core2 core2 task1 world1 world1_read net2)
    as (H1 & H2 & _); [vm_compute; reflexivity | reflexivity |].
  destruct (VirtualIP_queries_agree plain_CallTrace quiet plain_Marshal_Network
              plain_Unmarshal_Network core1 core1 task1 world1 world1_read net1)
    as (_ & H3 & _); [vm_compute; reflexivity | reflexivity |].
  split; [exact H1|]. split; [exact H2 | exact H3].
Defined.

(** The VIP queries on [core2] over an empty storage. *)
Lemma VirtualIP_queries_reload_failure_witness :
  (HasVirtualIP plain_CallTrace quiet plain_Marshal_Network plain_Unmarshal_Network
     core2 (Some task1) emptyWorld).1.1 = false
  /\ (GetVirtualIP plain_CallTrace quiet plain_Marshal_Network plain_Unmarshal_Network
        core2 (Some task1) emptyWorld).1.1
     = (None, Some (Wrap (Some (NotFoundError "no metadata 'byID/id-1'"))
                      "cannot get network virtual IP")).
Proof.
  apply (VirtualIP_queries_reload_failure plain_CallTrace quiet plain_Marshal_Network
           plain_Unmarshal_Network core2 core2 task1 emptyWorld
           (emit (FolderRead "networks" "byID" "id-1") emptyWorld)
           (NotFoundError "no metadata 'byID/id-1'")).
  - reflexivity.
  - vm_compute. reflexivity.
Defined.

(** A local path, and a path with two separators. *)
Lemma extract_by_separators_witness :
  extracthostName plain_TrimSpace plain_ToLower "/tmp/f" = ("", None)
  /\ extractPath plain_TrimSpace plain_ToLower "/tmp/f" = ("/tmp/f", None)
  /\ extractPath plain_TrimSpace plain_ToLower "h1:C:/f"
     = ("", Some (GoError "too many parts in path")).
Proof.
  destruct (extract_by_separators plain_TrimSpace plain_ToLower "/tmp/f") as (H1 & _).
  destruct (extract_by_separators plain_TrimSpace plain_ToLower "h1:C:/f") as (_ & H2).
  split; [exact (proj1 (H1 eq_refl))|]. split; [exact (proj2 (H1 eq_refl))|].
  apply H2. vm_compute. lia.
Defined.

(** A remote path on host [h1], and a URL. *)
Lemma extract_host_and_path_witness :
  (extracthostName plain_TrimSpace plain_ToLower "h1 : /tmp/f" = ("h1", None)
   /\ extractPath plain_TrimSpace plain_ToLower "h1 : /tmp/f" = ("/tmp/f", None))
  /\ (extracthostName plain_TrimSpace plain_ToLower "HTTP:example"
      = ("", Some (GoError "no protocol expected. Only host name"))
      /\ extractPath plain_TrimSpace plain_ToLower "HTTP:example"
         = ("", Some (GoError "no protocol expected. Only host name"))).
Proof.
  split.
  - exact (extract_host_and_path plain_TrimSpace plain_ToLower "h1 " " /tmp/f"
             eq_refl eq_refl).
  - exact (extract_host_and_path plain_TrimSpace plain_ToLower "HTTP" "example"
             eq_refl eq_refl).
Defined.
